(** * GigaWireVB, common/vb_log.c: the log-line encoder

    A shallow embedding of [vb_log.c].  Memory blocks are lists of
    characters with explicit terminators, pointers are [option]s of the
    block they point to ([None] is NULL), and every write is bounds
    checked: a write outside its block, or an access through NULL, ends
    the run in [Fault].  The process-wide threshold and the observable
    effects (allocation, standard error, syslog) are threaded through a
    [log_state]. *)

From Stdlib Require Import ZArith Ascii String Decimal.
From stdpp Require Import base numbers list.

Local Open Scope nat_scope.

(** ** Characters, blocks and C strings *)

Abbreviation CHAR := ascii.
Abbreviation bytes := (list ascii).

Definition NUL : CHAR := Ascii.zero.
Definition SPACE : CHAR := " "%char.

(** A string literal of the source, without its terminator. *)
Definition lit (s : string) : bytes := list_ascii_of_string s.

(** The C string stored at the start of a block: the characters before the
    first terminator.  This is what [%s], [strncpy] and [syslog] read. *)
Fixpoint c_str (m : bytes) : bytes :=
  match m with
  | [] => []
  | c :: m' => if Ascii.eqb c NUL then [] else c :: c_str m'
  end.

(** ** Runs that may fault *)

Inductive outcome (A : Type) : Type :=
| Done (a : A)
| Fault.
Arguments Done {A} a.
Arguments Fault {A}.

Definition obind {A B : Type} (c : outcome A) (k : A -> outcome B) : outcome B :=
  match c with
  | Done a => k a
  | Fault => Fault
  end.

Notation "'do!' x := c 'in' k" := (obind c (fun x => k))
  (at level 10, x name, c at level 100, k at level 200).

(** ** Bounds-checked memory writes *)

(** [buf[i] = c] *)
Definition store (buf : bytes) (i : nat) (c : CHAR) : outcome bytes :=
  if i <? length buf then Done (<[i:=c]> buf) else Fault.

(** Copy [src] over [buf[off .. off + length src)]. *)
Definition blit (buf : bytes) (off : nat) (src : bytes) : outcome bytes :=
  if off + length src <=? length buf
  then Done (take off buf ++ src ++ drop (off + length src) buf)
  else Fault.

(** ** The libc routines the encoder calls *)

(** [strncpy(dst, src, n)]: exactly [n] bytes are written, the characters
    of [src] up to its terminator or up to [n] of them, then terminators. *)
Definition strncpy_image (src : bytes) (n : nat) : bytes :=
  let s := take n (c_str src) in s ++ replicate (n - length s) NUL.

Definition strncpy (dst : bytes) (src : option bytes) (n : nat) : outcome bytes :=
  match src with
  | None => Fault
  | Some s => blit dst 0 (strncpy_image s n)
  end.

(** [snprintf(buf + off, size, ...)], [text] being what the format and its
    arguments expand to: at most [size - 1] characters and a terminator;
    nothing when [size] is 0. *)
Definition snprintf (buf : bytes) (off size : nat) (text : bytes) : outcome bytes :=
  match size with
  | 0 => Done buf
  | S k => blit buf off (take k text ++ [NUL])
  end.

(** The same through a pointer that may be NULL. *)
Definition snprintf_at (p : option bytes) (off size : nat) (text : bytes)
  : outcome (option bytes) :=
  match p with
  | None => Fault
  | Some buf => do! buf' := snprintf buf off size text in Done (Some buf')
  end.

(** *** Conversions of the format strings *)

Fixpoint uint_digits (d : Decimal.uint) : bytes :=
  match d with
  | Nil => []
  | D0 d => "0"%char :: uint_digits d
  | D1 d => "1"%char :: uint_digits d
  | D2 d => "2"%char :: uint_digits d
  | D3 d => "3"%char :: uint_digits d
  | D4 d => "4"%char :: uint_digits d
  | D5 d => "5"%char :: uint_digits d
  | D6 d => "6"%char :: uint_digits d
  | D7 d => "7"%char :: uint_digits d
  | D8 d => "8"%char :: uint_digits d
  | D9 d => "9"%char :: uint_digits d
  end.

(** [%u] of a non-negative value. *)
Definition utoa (n : Z) : bytes := uint_digits (N.to_uint (Z.to_N n)).

(** [%d] *)
Definition fmt_d (n : Z) : bytes :=
  if (n <? 0)%Z then "-"%char :: utoa (- n) else utoa n.

(** [%0<w>u] *)
Definition fmt_0u (w : nat) (n : Z) : bytes :=
  let d := utoa n in replicate (w - length d) "0"%char ++ d.

(** [%0<w>d]: the sign counts in the width and precedes the zeros. *)
Definition fmt_0d (w : nat) (n : Z) : bytes :=
  if (n <? 0)%Z
  then let d := utoa (- n) in "-"%char :: replicate (w - 1 - length d) "0"%char ++ d
  else fmt_0u w n.

(** [%<w>s]: right justified. *)
Definition fmt_s (w : nat) (arg : bytes) : bytes :=
  let s := c_str arg in replicate (w - length s) SPACE ++ s.

(** [%-<w>s]: left justified. *)
Definition fmt_s_left (w : nat) (arg : bytes) : bytes :=
  let s := c_str arg in s ++ replicate (w - length s) SPACE.

(** ** Private constants of vb_log.c *)

Definition VB_LOG_MAX_MODE_LEN : nat := 7.
Definition VB_LOG_MAX_FILE_LEN : nat := 30.
Definition VB_LOG_MAX_LINENUM_LEN : nat := 5.
Definition VB_LOG_MAX_FUNC_LEN : nat := 40.
Definition VB_LOG_MAX_EXTRA_LEN : nat := 24.
Definition VB_LOG_MAX_HDR_LEN : nat :=
  VB_LOG_MAX_FILE_LEN + VB_LOG_MAX_LINENUM_LEN +
  VB_LOG_MAX_FUNC_LEN + VB_LOG_MAX_MODE_LEN +
  VB_LOG_MAX_EXTRA_LEN.
Definition VB_LOG_MAX_LINE_LEN : nat := 200.
Definition VB_LOG_ENTRY_LEN : nat := VB_LOG_MAX_HDR_LEN + VB_LOG_MAX_LINE_LEN.

(** ["[%7s][%30s][%5s][%40s][%02d:%02d:%02d %03dms]"] *)
Definition VB_LOG_FMT (mode_str file_name_str linenum_name_str func_name_str : bytes)
    (hour minute sec msec : Z) : bytes :=
  lit "[" ++ fmt_s 7 mode_str ++
  lit "][" ++ fmt_s 30 file_name_str ++
  lit "][" ++ fmt_s 5 linenum_name_str ++
  lit "][" ++ fmt_s 40 func_name_str ++
  lit "][" ++ fmt_0d 2 hour ++ lit ":" ++ fmt_0d 2 minute ++ lit ":" ++ fmt_0d 2 sec ++
  lit " " ++ fmt_0d 3 msec ++ lit "ms]".

(** ["[%-20s]"] *)
Definition VB_LOG_DRIVER_ID_FMT (driver_id_str : bytes) : bytes :=
  lit "[" ++ fmt_s_left 20 driver_id_str ++ lit "]".

(** ** Integer types *)

(** The value an [INT16U] parameter receives. *)
Definition INT16U_of (z : Z) : Z := (z mod 65536)%Z.

(** The value an [INT32U] variable receives. *)
Definition INT32U_of (z : Z) : Z := (z mod 4294967296)%Z.

(** ** What a call reads from outside the module *)

Record tm := { tm_hour : Z; tm_min : Z; tm_sec : Z }.

Record env := {
  calloc_ok : bool;        (** whether [calloc] finds memory *)
  localtime : option tm;   (** [localtime(&t)], NULL on failure *)
  tv_usec : Z;             (** [tv.tv_usec] after [gettimeofday] *)
  stack : bytes            (** what uninitialised locals happen to hold *)
}.

(** An uninitialised local array of [n] characters. *)
Definition local_array (e : env) (n : nat) : bytes :=
  take n (stack e ++ replicate n NUL).

(** ** The copies into fixed fields

    The source copies a name into a local array three times, each time as
    [strncpy(a, src, size); a[size - 1] = '\0';] on [CHAR a[size]]. *)

(** [// Copy file name], on [CHAR file_name_str[VB_LOG_MAX_FILE_LEN+1]] *)
Definition file_name_copy (e : env) (file : option bytes) : outcome bytes :=
  do! file_name_str := strncpy (local_array e (VB_LOG_MAX_FILE_LEN + 1)) file
                         (VB_LOG_MAX_FILE_LEN + 1) in
  store file_name_str VB_LOG_MAX_FILE_LEN NUL.

(** [// Copy func name], on [CHAR func_name_str[VB_LOG_MAX_FUNC_LEN+1]] *)
Definition func_name_copy (e : env) (function : option bytes) : outcome bytes :=
  do! func_name_str := strncpy (local_array e (VB_LOG_MAX_FUNC_LEN + 1)) function
                         (VB_LOG_MAX_FUNC_LEN + 1) in
  store func_name_str VB_LOG_MAX_FUNC_LEN NUL.

(** [// Copy driver Id], on [CHAR driver_id_str[VB_EA_DRIVER_ID_MAX_SIZE]] *)
Definition driver_id_copy (VB_EA_DRIVER_ID_MAX_SIZE : nat) (e : env)
    (driverId : option bytes) : outcome bytes :=
  do! driver_id_str := strncpy (local_array e VB_EA_DRIVER_ID_MAX_SIZE) driverId
                         VB_EA_DRIVER_ID_MAX_SIZE in
  store driver_id_str (VB_EA_DRIVER_ID_MAX_SIZE - 1) NUL.

(** ** Process state and observable effects *)

Inductive event : Type :=
| EvCalloc (size : nat)     (** a call of [calloc(1, size)] *)
| EvStderr (text : bytes)   (** characters written to standard error *)
| EvSyslog (line : bytes).  (** one [syslog(LOG_INFO, "%s", line)] *)

Record log_state := {
  vbLogVerbose : Z;        (** [static t_vbLogLevel vbLogVerbose] *)
  trace : list event       (** effects so far, oldest first *)
}.

Definition emit (ev : event) (st : log_state) : log_state :=
  {| vbLogVerbose := vbLogVerbose st; trace := trace st ++ [ev] |}.

(** The lines handed to the sink, oldest first. *)
Fixpoint sink_lines (t : list event) : list bytes :=
  match t with
  | [] => []
  | EvSyslog l :: t' => l :: sink_lines t'
  | _ :: t' => sink_lines t'
  end.

(** The characters written to standard error. *)
Fixpoint stderr_text (t : list event) : bytes :=
  match t with
  | [] => []
  | EvStderr s :: t' => s ++ stderr_text t'
  | _ :: t' => stderr_text t'
  end.

(** [calloc(1, size)]: a zeroed block, or NULL. *)
Definition calloc (e : env) (size : nat) : option bytes :=
  if calloc_ok e then Some (replicate size NUL) else None.

(** [syslog(LOG_INFO, "%s", p)] *)
Definition syslog (p : option bytes) (st : log_state) : outcome log_state :=
  match p with
  | None => Fault
  | Some buf => Done (emit (EvSyslog (c_str buf)) st)
  end.

(** ** vb_log.c *)

(** [VbLogErrorPrint(fmt, ...)], [text] being the expansion of [fmt]:
    the text, then a newline, on standard error. *)
Definition VbLogErrorPrint (text : bytes) (st : log_state) : log_state :=
  emit (EvStderr [ascii_of_nat 10]) (emit (EvStderr text) st).

(** The millisecond value of the header:
    [INT32U msec = tv.tv_usec / 1000; if (msec >= 1000) msec = 999;] *)
Definition msec_of (usec : Z) : Z :=
  let msec := INT32U_of (Z.quot usec 1000) in
  if (msec >=? 1000)%Z then 999%Z else msec.

Section Encoder.

(** Declared in headers outside this file: the sentinel of
    [t_vbLogLevel] (levels are compared as the integers they are), the
    level names of vb_util (a string for every level, never NULL), and the
    size of a driver identifier of vb_ea_communication.h. *)
Variable VB_LOG_LAST : Z.
Variable VbVerboseLevelToStr : Z -> bytes.
Variable VB_EA_DRIVER_ID_MAX_SIZE : nat.

Definition VB_LOG_MAX_DRIVER_HDR_LEN : nat := VB_EA_DRIVER_ID_MAX_SIZE + 2.
Definition VB_LOG_MAX_EXT_HDR_LEN : nat := VB_LOG_MAX_HDR_LEN + VB_LOG_MAX_DRIVER_HDR_LEN.
Definition VB_LOG_EXT_ENTRY_LEN : nat := VB_LOG_MAX_EXT_HDR_LEN + VB_LOG_MAX_LINE_LEN.

Definition VbLogHdrBuild (dst : option bytes) (mode : Z) (file : option bytes)
    (line : Z) (function : option bytes) (e : env) : outcome (option bytes) :=
  match dst, file, function with
  | Some _, Some _, Some _ =>
    if (mode <? VB_LOG_LAST)%Z then
      match localtime e with
      | Some tmu =>
        let mode_str := local_array e (VB_LOG_MAX_MODE_LEN + 1) in
        let linenum_name_str := local_array e (VB_LOG_MAX_LINENUM_LEN + 1) in
        (* Copy level string *)
        do! mode_str := snprintf mode_str 0 (VB_LOG_MAX_MODE_LEN + 1)
                          (fmt_s 7 (VbVerboseLevelToStr mode)) in
        do! mode_str := store mode_str VB_LOG_MAX_MODE_LEN NUL in
        (* Copy file name *)
        do! file_name_str := file_name_copy e file in
        (* Copy line number *)
        do! linenum_name_str := snprintf linenum_name_str 0 (VB_LOG_MAX_LINENUM_LEN + 1)
                                  (fmt_0u 5 (INT16U_of line)) in
        do! linenum_name_str := store linenum_name_str VB_LOG_MAX_LINENUM_LEN NUL in
        (* Copy func name *)
        do! func_name_str := func_name_copy e function in
        let msec := msec_of (tv_usec e) in
        (* Build the whole header *)
        snprintf_at dst 0 (VB_LOG_MAX_HDR_LEN + 1)
          (VB_LOG_FMT mode_str file_name_str linenum_name_str func_name_str
             (tm_hour tmu) (tm_min tmu) (tm_sec tmu) msec)
      | None => Done dst
      end
    else Done dst
  | _, _, _ => Done dst
  end.

Definition VbLogInit (queueName : option bytes) (verboseLevel : Z)
    (outputFolder : option bytes) (persLogNumLines : Z) (persLogVerbose : Z)
    (circular : bool) (st : log_state) : Z * log_state :=
  (0%Z, {| vbLogVerbose := verboseLevel; trace := trace st |}).

Definition VbLogVerboseLevelGet (st : log_state) : Z := vbLogVerbose st.

(** [msg] is the expansion of [fmt] with the variadic arguments. *)
Definition VbLogPrint_helper (current_file_name : option bytes)
    (current_line_number : Z) (current_function_name : option bytes)
    (verboseLevel : Z) (msg : bytes) (e : env) (st : log_state) : outcome log_state :=
  if (verboseLevel <=? vbLogVerbose st)%Z then
    let st := emit (EvCalloc (VB_LOG_ENTRY_LEN + 1)) st in
    match calloc e (VB_LOG_ENTRY_LEN + 1) with
    | None =>
      Done (VbLogErrorPrint
              (lit "No memory to allocate log_line (" ++
               fmt_d (Z.of_nat (VB_LOG_ENTRY_LEN + 1)) ++ lit " bytes)") st)
    | Some _ as log_line =>
      (* Build header *)
      do! log_line := VbLogHdrBuild log_line verboseLevel current_file_name
                        current_line_number current_function_name e in
      (* Locate pointer after header *)
      let dst := VB_LOG_MAX_HDR_LEN in
      do! log_line := snprintf_at log_line dst VB_LOG_MAX_LINE_LEN msg in
      syslog log_line st
    end
  else Done st.

Definition VbLogPrintExt_helper (current_file_name : option bytes)
    (current_line_number : Z) (current_function_name : option bytes)
    (verboseLevel : Z) (driverId : option bytes) (msg : bytes)
    (e : env) (st : log_state) : outcome log_state :=
  if (verboseLevel <=? vbLogVerbose st)%Z then
    let st := emit (EvCalloc (VB_LOG_EXT_ENTRY_LEN + 1)) st in
    match calloc e (VB_LOG_EXT_ENTRY_LEN + 1) with
    | None =>
      Done (VbLogErrorPrint
              (lit "No memory to allocate log_line (" ++
               fmt_d (Z.of_nat (VB_LOG_EXT_ENTRY_LEN + 1)) ++ lit " bytes)") st)
    | Some _ as log_line =>
      (* Build header *)
      do! log_line := VbLogHdrBuild log_line verboseLevel current_file_name
                        current_line_number current_function_name e in
      (* Locate pointer after base header *)
      let dst := VB_LOG_MAX_HDR_LEN in
      (* Copy driver Id *)
      do! driver_id_str := driver_id_copy VB_EA_DRIVER_ID_MAX_SIZE e driverId in
      (* Dump DriverId *)
      do! log_line := snprintf_at log_line dst VB_LOG_MAX_DRIVER_HDR_LEN
                        (VB_LOG_DRIVER_ID_FMT driver_id_str) in
      (* Locate pointer after driverId header *)
      let dst := dst + (VB_LOG_MAX_DRIVER_HDR_LEN - 1) in
      do! log_line := snprintf_at log_line dst VB_LOG_MAX_LINE_LEN msg in
      syslog log_line st
    end
  else Done st.

End Encoder.

(** ** The public calls as data, for runs of several calls *)

Inductive api_call : Type :=
| Call_VbLogPrint (file : option bytes) (line : Z) (function : option bytes)
    (verboseLevel : Z) (msg : bytes) (e : env)
| Call_VbLogPrintExt (file : option bytes) (line : Z) (function : option bytes)
    (verboseLevel : Z) (driverId : option bytes) (msg : bytes) (e : env)
| Call_VbLogVerboseLevelGet.

Definition run_call (VB_LOG_LAST : Z) (VbVerboseLevelToStr : Z -> bytes)
    (VB_EA_DRIVER_ID_MAX_SIZE : nat) (c : api_call) (st : log_state) : outcome log_state :=
  match c with
  | Call_VbLogPrint file line function verboseLevel msg e =>
    VbLogPrint_helper VB_LOG_LAST VbVerboseLevelToStr
      file line function verboseLevel msg e st
  | Call_VbLogPrintExt file line function verboseLevel driverId msg e =>
    VbLogPrintExt_helper VB_LOG_LAST VbVerboseLevelToStr VB_EA_DRIVER_ID_MAX_SIZE
      file line function verboseLevel driverId msg e st
  | Call_VbLogVerboseLevelGet =>
    let _ := VbLogVerboseLevelGet st in Done st
  end.

Fixpoint run_calls (VB_LOG_LAST : Z) (VbVerboseLevelToStr : Z -> bytes)
    (VB_EA_DRIVER_ID_MAX_SIZE : nat) (cs : list api_call) (st : log_state)
  : outcome log_state :=
  match cs with
  | [] => Done st
  | c :: cs' =>
    do! st' := run_call VB_LOG_LAST VbVerboseLevelToStr VB_EA_DRIVER_ID_MAX_SIZE c st in
    run_calls VB_LOG_LAST VbVerboseLevelToStr VB_EA_DRIVER_ID_MAX_SIZE cs' st'
  end.

(** An extended call hands over a driver identifier. *)
Definition has_driver_id (c : api_call) : Prop :=
  match c with
  | Call_VbLogPrintExt _ _ _ _ None _ _ => False
  | _ => True
  end.

(** ** Vocabulary of the statements *)

(** [st] after the further effects [new]; the threshold is kept. *)
Definition extend (st : log_state) (new : list event) : log_state :=
  {| vbLogVerbose := vbLogVerbose st; trace := trace st ++ new |}.

Definition no_nul (s : bytes) : Prop := Forall (fun c => c <> NUL) s.

(** The text of a header, field by field: each field cut to its width,
    the whole cut to [VB_LOG_MAX_HDR_LEN]. *)
Definition header_text (VbVerboseLevelToStr : Z -> bytes) (mode : Z) (file : bytes)
    (line : Z) (function : bytes) (tmu : tm) (usec : Z) : bytes :=
  take VB_LOG_MAX_HDR_LEN
    (VB_LOG_FMT
       (take VB_LOG_MAX_MODE_LEN (fmt_s 7 (VbVerboseLevelToStr mode)))
       (take VB_LOG_MAX_FILE_LEN (c_str file))
       (take VB_LOG_MAX_LINENUM_LEN (fmt_0u 5 (INT16U_of line)))
       (take VB_LOG_MAX_FUNC_LEN (c_str function))
       (tm_hour tmu) (tm_min tmu) (tm_sec tmu) (msec_of usec)).

(** The characters an extended entry puts after the base header for the
    driver identifier [id]. *)
Definition driver_field (VB_EA_DRIVER_ID_MAX_SIZE : nat) (id : bytes) : bytes :=
  take (VB_LOG_MAX_DRIVER_HDR_LEN VB_EA_DRIVER_ID_MAX_SIZE - 1)
    (VB_LOG_DRIVER_ID_FMT (take (VB_EA_DRIVER_ID_MAX_SIZE - 1) (c_str id))).

(** The message body as the sink sees it. *)
Definition body_text (msg : bytes) : bytes :=
  c_str (take (VB_LOG_MAX_LINE_LEN - 1) msg).

(** The line of an extended entry: header, driver field, and the message
    when the driver field reaches the place the message is written at. *)
Definition ext_line (N : nat) (hdr id msg : bytes) : bytes :=
  hdr ++ driver_field N id ++
  (if VB_LOG_MAX_DRIVER_HDR_LEN N - 1 <=? length (driver_field N id)
   then body_text msg else []).

(** The line a plain call hands to the sink once it is past the gate and
    has its buffer: header and message, or nothing readable when
    [VbLogHdrBuild] wrote no header. *)
Definition plain_entry (VB_LOG_LAST : Z) (VbVerboseLevelToStr : Z -> bytes)
    (file : option bytes) (line : Z) (function : option bytes) (L : Z) (msg : bytes)
    (e : env) : bytes :=
  match file, function, localtime e with
  | Some f, Some fn, Some tmu =>
    if (L <? VB_LOG_LAST)%Z
    then header_text VbVerboseLevelToStr L f line fn tmu (tv_usec e) ++ body_text msg
    else []
  | _, _, _ => []
  end.

(** The same for an extended call with the driver identifier [id]. *)
Definition ext_entry (VB_LOG_LAST : Z) (VbVerboseLevelToStr : Z -> bytes)
    (VB_EA_DRIVER_ID_MAX_SIZE : nat)
    (file : option bytes) (line : Z) (function : option bytes) (L : Z) (id msg : bytes)
    (e : env) : bytes :=
  match file, function, localtime e with
  | Some f, Some fn, Some tmu =>
    if (L <? VB_LOG_LAST)%Z
    then ext_line VB_EA_DRIVER_ID_MAX_SIZE
           (header_text VbVerboseLevelToStr L f line fn tmu (tv_usec e)) id msg
    else []
  | _, _, _ => []
  end.

(** The lines a call hands to the sink: those of its result [r] that the
    state [st] it started from did not have. *)
Definition lines_emitted (st : log_state) (r : outcome log_state) : list bytes :=
  match r with
  | Done st' => drop (length (sink_lines (trace st))) (sink_lines (trace st'))
  | Fault => []
  end.

(** ** Inputs of the examples

    vb_log.h is not among the sources; the examples take five levels and
    their names.  Every theorem below holds for any sentinel and names. *)

Definition example_LAST : Z := 5.

Definition example_names (level : Z) : bytes :=
  if (level =? 0)%Z then lit "ERROR"
  else if (level =? 1)%Z then lit "WARNING"
  else if (level =? 2)%Z then lit "INFO"
  else if (level =? 3)%Z then lit "DEBUG"
  else lit "ALWAYS".

Definition example_clock : tm := {| tm_hour := 9; tm_min := 5; tm_sec := 59 |}.

Definition example_env : env :=
  {| calloc_ok := true; localtime := Some example_clock; tv_usec := 123456;
     stack := lit "left over" |}.

Definition example_env_no_memory : env :=
  {| calloc_ok := false; localtime := Some example_clock; tv_usec := 123456;
     stack := lit "left over" |}.

(** A process that has logged nothing yet, with threshold [T]. *)
Definition example_state_at (T : Z) : log_state := {| vbLogVerbose := T; trace := [] |}.

(** The threshold is level 1. *)
Definition example_state : log_state := example_state_at 1.

(** The header of the example calls: level 0 from [net.c], line 42,
    [doSend], at 09:05:59 and 123 ms. *)
Definition example_header : bytes :=
  lit "[  ERROR][                         net.c][00042][                                  doSend][09:05:59 123ms]".

(** A driver identifier of 64 characters. *)
Definition example_id64 : bytes :=
  lit "0123456789012345678901234567890123456789012345678901234567890123".

(** A file name of 49 characters. *)
Definition example_long_file : bytes :=
  lit "a_very_long_file_name_that_exceeds_thirty_chars.c".

(** A function name of 45 characters. *)
Definition example_long_function : bytes :=
  lit "VbEngineProcessAlignmentClusterStopConfirmRcv".

(** The diagnostic of a failed allocation of [size] bytes. *)
Definition no_memory_text (size : nat) : bytes :=
  lit "No memory to allocate log_line (" ++ fmt_d (Z.of_nat size) ++ lit " bytes)".

(** The time-of-day fields are those of a clock: two digits each. *)
Definition tm_in_range (t : tm) : Prop :=
  (0 <= tm_hour t <= 23)%Z /\ (0 <= tm_min t <= 59)%Z /\ (0 <= tm_sec t <= 60)%Z.

(** ** The public functions of vb_log.c that have no body of their own *)

(** [BOOLEAN VbLogRun() { return 1; }] *)
Definition VbLogRun (st : log_state) : Z * log_state := (1%Z, st).

(** [void VbLogStop() { }] *)
Definition VbLogStop (st : log_state) : log_state := st.

(** [void VbLogSaveToTextFile(file_name, access_mode, maxLen, fmt, ...) { }],
    [msg] being the expansion of [fmt]. *)
Definition VbLogSaveToTextFile (file_name access_mode : option bytes) (maxLen : Z)
    (msg : bytes) (st : log_state) : log_state := st.

(** [void VbLogPersistentDump(t_writeFun writeFun) { }] *)
Definition VbLogPersistentDump {A : Type} (writeFun : A) (st : log_state) : log_state :=
  st.

(** [BOOL VbLogConsoleCmd(void *arg, t_writeFun writeFun, char **cmd) { return 0; }] *)
Definition VbLogConsoleCmd {A B : Type} (arg : A) (writeFun : B) (cmd : list bytes)
    (st : log_state) : Z * log_state := (0%Z, st).

(** Every public function of the file, as data. *)
Inductive public_call : Type :=
| Pub_VbLogInit (queueName : option bytes) (verboseLevel : Z)
    (outputFolder : option bytes) (persLogNumLines persLogVerbose : Z) (circular : bool)
| Pub_VbLogRun
| Pub_VbLogStop
| Pub_VbLogSaveToTextFile (file_name access_mode : option bytes) (maxLen : Z)
    (msg : bytes)
| Pub_VbLogPersistentDump
| Pub_VbLogConsoleCmd (cmd : list bytes)
| Pub_logging (c : api_call).

Definition run_public_call (VB_LOG_LAST : Z) (VbVerboseLevelToStr : Z -> bytes)
    (VB_EA_DRIVER_ID_MAX_SIZE : nat) (c : public_call) (st : log_state)
  : outcome log_state :=
  match c with
  | Pub_VbLogInit queueName verboseLevel outputFolder persLogNumLines persLogVerbose
      circular =>
    Done (snd (VbLogInit queueName verboseLevel outputFolder persLogNumLines
                 persLogVerbose circular st))
  | Pub_VbLogRun => Done (snd (VbLogRun st))
  | Pub_VbLogStop => Done (VbLogStop st)
  | Pub_VbLogSaveToTextFile file_name access_mode maxLen msg =>
    Done (VbLogSaveToTextFile file_name access_mode maxLen msg st)
  | Pub_VbLogPersistentDump => Done (VbLogPersistentDump tt st)
  | Pub_VbLogConsoleCmd cmd => Done (snd (VbLogConsoleCmd tt tt cmd st))
  | Pub_logging c =>
    run_call VB_LOG_LAST VbVerboseLevelToStr VB_EA_DRIVER_ID_MAX_SIZE c st
  end.

Fixpoint run_public (VB_LOG_LAST : Z) (VbVerboseLevelToStr : Z -> bytes)
    (VB_EA_DRIVER_ID_MAX_SIZE : nat) (cs : list public_call) (st : log_state)
  : outcome log_state :=
  match cs with
  | [] => Done st
  | c :: cs' =>
    do! st' := run_public_call VB_LOG_LAST VbVerboseLevelToStr
                 VB_EA_DRIVER_ID_MAX_SIZE c st in
    run_public VB_LOG_LAST VbVerboseLevelToStr VB_EA_DRIVER_ID_MAX_SIZE cs' st'
  end.

(** The level of the last [VbLogInit] of a run, [T] when there is none. *)
Fixpoint last_init_level (cs : list public_call) (T : Z) : Z :=
  match cs with
  | [] => T
  | Pub_VbLogInit _ verboseLevel _ _ _ _ :: cs' => last_init_level cs' verboseLevel
  | _ :: cs' => last_init_level cs' T
  end.

(** The logging calls of a run, in order. *)
Fixpoint logging_calls (cs : list public_call) : list api_call :=
  match cs with
  | [] => []
  | Pub_logging c :: cs' => c :: logging_calls cs'
  | _ :: cs' => logging_calls cs'
  end.

(** ** Further vocabulary *)

(** The sizes asked of [calloc], oldest first. *)
Fixpoint calloc_sizes (t : list event) : list nat :=
  match t with
  | [] => []
  | EvCalloc n :: t' => n :: calloc_sizes t'
  | _ :: t' => calloc_sizes t'
  end.

(** [e] with other leftovers on the stack. *)
Definition with_stack (e : env) (leftovers : bytes) : env :=
  {| calloc_ok := calloc_ok e; localtime := localtime e; tv_usec := tv_usec e;
     stack := leftovers |}.



(** ** Facts about C strings and the memory writes *)

Lemma c_str_no_nul (m : bytes) : no_nul (c_str m).
Proof.
  induction m as [|c m IH]; simpl; [constructor|].
  destruct (Ascii.eqb_spec c NUL); constructor; assumption.
Qed.

Lemma c_str_id (s : bytes) : no_nul s -> c_str s = s.
Proof.
  induction 1 as [|c s Hc _ IH]; simpl; [reflexivity|].
  destruct (Ascii.eqb_spec c NUL); [contradiction|]. now rewrite IH.
Qed.

Lemma c_str_app (a b : bytes) : no_nul a -> c_str (a ++ b) = a ++ c_str b.
Proof.
  induction 1 as [|c s Hc _ IH]; simpl; [reflexivity|].
  destruct (Ascii.eqb_spec c NUL); [contradiction|]. now rewrite IH.
Qed.

Lemma c_str_stop (m r : bytes) : c_str (m ++ NUL :: r) = c_str m.
Proof.
  induction m as [|c m IH]; simpl; [reflexivity|].
  destruct (Ascii.eqb_spec c NUL); [reflexivity|]. now rewrite IH.
Qed.

Lemma c_str_length (m : bytes) : length (c_str m) <= length m.
Proof.
  induction m as [|c m IH]; simpl; [lia|].
  destruct (Ascii.eqb c NUL); simpl; lia.
Qed.

Lemma c_str_take (m : bytes) (n : nat) :
  take n (c_str m) = take n (c_str (take n m)).
Proof.
  revert n. induction m as [|c m IH]; intros [|n]; simpl; try reflexivity.
  destruct (Ascii.eqb c NUL); simpl; [reflexivity|]. now rewrite IH.
Qed.

Lemma no_nul_app (a b : bytes) : no_nul a -> no_nul b -> no_nul (a ++ b).
Proof. intros. apply Forall_app. split; assumption. Qed.

Lemma no_nul_take (n : nat) (a : bytes) : no_nul a -> no_nul (take n a).
Proof. intros H. unfold no_nul. now apply Forall_take. Qed.

Lemma no_nul_replicate (n : nat) (c : ascii) : c <> NUL -> no_nul (replicate n c).
Proof. intros H. unfold no_nul. now apply Forall_replicate. Qed.

Lemma no_nul_lit (s : string) :
  forallb (fun c => negb (Ascii.eqb c NUL)) (lit s) = true -> no_nul (lit s).
Proof.
  unfold no_nul. generalize (lit s). intros l H.
  induction l as [|c l IH]; simpl in *; constructor.
  - destruct (Ascii.eqb_spec c NUL); [discriminate | assumption].
  - apply IH. destruct (Ascii.eqb c NUL); [discriminate | assumption].
Qed.

Lemma uint_digits_no_nul (d : Decimal.uint) : no_nul (uint_digits d).
Proof. induction d; simpl; constructor; try assumption; discriminate. Qed.

Lemma utoa_no_nul (n : Z) : no_nul (utoa n).
Proof. apply uint_digits_no_nul. Qed.

Lemma fmt_0u_no_nul (w : nat) (n : Z) : no_nul (fmt_0u w n).
Proof.
  apply no_nul_app; [apply no_nul_replicate; discriminate | apply utoa_no_nul].
Qed.

Lemma fmt_0d_no_nul (w : nat) (n : Z) : no_nul (fmt_0d w n).
Proof.
  unfold fmt_0d. destruct (n <? 0)%Z; [|apply fmt_0u_no_nul].
  constructor; [discriminate|].
  apply no_nul_app; [apply no_nul_replicate; discriminate | apply utoa_no_nul].
Qed.

Lemma fmt_s_no_nul (w : nat) (a : bytes) : no_nul (fmt_s w a).
Proof.
  apply no_nul_app; [apply no_nul_replicate; discriminate | apply c_str_no_nul].
Qed.

Lemma fmt_s_left_no_nul (w : nat) (a : bytes) : no_nul (fmt_s_left w a).
Proof.
  apply no_nul_app; [apply c_str_no_nul | apply no_nul_replicate; discriminate].
Qed.

Lemma fmt_s_length (w : nat) (a : bytes) :
  length (fmt_s w a) = Nat.max w (length (c_str a)).
Proof. unfold fmt_s. cbv zeta. rewrite length_app, length_replicate. lia. Qed.

Lemma fmt_s_left_length (w : nat) (a : bytes) :
  length (fmt_s_left w a) = Nat.max w (length (c_str a)).
Proof. unfold fmt_s_left. cbv zeta. rewrite length_app, length_replicate. lia. Qed.

Lemma fmt_0u_length (w : nat) (n : Z) : w <= length (fmt_0u w n).
Proof. unfold fmt_0u. cbv zeta. rewrite length_app, length_replicate. lia. Qed.

Lemma fmt_0d_length (w : nat) (n : Z) : w <= length (fmt_0d w n).
Proof.
  unfold fmt_0d. destruct (n <? 0)%Z; [|apply fmt_0u_length].
  simpl. rewrite length_app, length_replicate. lia.
Qed.

(** An argument of [%s] is read up to its terminator only. *)
Lemma fmt_s_terminated (w : nat) (s r : bytes) :
  no_nul s -> fmt_s w (s ++ NUL :: r) = fmt_s w s.
Proof. intros H. unfold fmt_s. now rewrite c_str_stop. Qed.

Lemma fmt_s_left_terminated (w : nat) (s r : bytes) :
  fmt_s_left w (s ++ NUL :: r) = fmt_s_left w s.
Proof. unfold fmt_s_left. now rewrite c_str_stop. Qed.

Lemma local_array_length (e : env) (n : nat) : length (local_array e n) = n.
Proof.
  unfold local_array. rewrite length_take, length_app, length_replicate. lia.
Qed.

Lemma store_in_bounds (buf : bytes) (i : nat) (c : CHAR) :
  i < length buf -> store buf i c = Done (<[i:=c]> buf).
Proof. intros H. unfold store. apply Nat.ltb_lt in H. now rewrite H. Qed.

Lemma blit_in_bounds (buf : bytes) (off : nat) (src : bytes) :
  off + length src <= length buf ->
  blit buf off src = Done (take off buf ++ src ++ drop (off + length src) buf).
Proof. intros H. unfold blit. apply Nat.leb_le in H. now rewrite H. Qed.

Lemma blit_all (buf src : bytes) :
  length src = length buf -> blit buf 0 src = Done src.
Proof.
  intros H. rewrite blit_in_bounds by lia. simpl.
  rewrite drop_ge by lia. now rewrite app_nil_r.
Qed.

Lemma blit_length (buf : bytes) (off : nat) (src buf' : bytes) :
  blit buf off src = Done buf' -> length buf' = length buf.
Proof.
  unfold blit. destruct (Nat.leb_spec (off + length src) (length buf)); [|discriminate].
  intros [= <-]. rewrite !length_app, length_take, length_drop. lia.
Qed.

Lemma strncpy_image_length (s : bytes) (n : nat) : length (strncpy_image s n) = n.
Proof.
  unfold strncpy_image. rewrite length_app, length_replicate, length_take. lia.
Qed.

(** [strncpy] reads no more than [n] bytes of its source. *)
Lemma strncpy_image_reads (s : bytes) (n : nat) :
  strncpy_image s n = strncpy_image (take n s) n.
Proof. unfold strncpy_image. now rewrite c_str_take. Qed.

(** [strncpy(a, s, n + 1); a[n] = '\0';] on an array of [n + 1] characters
    leaves the first [n] characters of [s], then terminators. *)
Lemma strncpy_terminate (a : bytes) (s : bytes) (n : nat) :
  length a = S n ->
  (do! a := strncpy a (Some s) (S n) in store a n NUL) =
  Done (take n (c_str s) ++ replicate (S n - length (take n (c_str s))) NUL).
Proof.
  intros Ha. unfold strncpy.
  rewrite blit_all by (rewrite strncpy_image_length; lia). simpl.
  rewrite store_in_bounds by (rewrite strncpy_image_length; lia).
  f_equal. unfold strncpy_image.
  destruct (Nat.le_gt_cases (length (c_str s)) n) as [Hle|Hgt].
  - rewrite !take_ge by lia.
    rewrite insert_app_r_alt by lia.
    f_equal. apply list_eq. intros i.
    destruct (Nat.eq_dec i (n - length (c_str s))) as [->|Hne].
    + rewrite list_lookup_insert_eq by (rewrite length_replicate; lia).
      symmetry. apply lookup_replicate_2. lia.
    + now rewrite list_lookup_insert_ne by congruence.
  - rewrite !length_take.
    replace (S n - S n `min` length (c_str s)) with 0 by lia.
    replace (S n - n `min` length (c_str s)) with 1 by lia.
    simpl. rewrite app_nil_r.
    rewrite insert_take_drop by (rewrite length_take; lia).
    rewrite take_take. replace (n `min` S n) with n by lia.
    f_equal. f_equal. apply drop_ge. rewrite length_take. lia.
Qed.

Lemma strncpy_terminate_c_str (s : bytes) (n k : nat) :
  c_str (take n (c_str s) ++ replicate k NUL) = take n (c_str s).
Proof.
  destruct k as [|k]; simpl; [rewrite app_nil_r | rewrite c_str_stop];
    apply c_str_id, no_nul_take, c_str_no_nul.
Qed.

(** [snprintf(a, n + 1, ...); a[n] = '\0';] on an array of [n + 1]
    characters, the expansion being at least [n] characters long. *)
Lemma snprintf_terminate (a text : bytes) (n : nat) :
  length a = S n -> n <= length text ->
  (do! a := snprintf a 0 (S n) text in store a n NUL) = Done (take n text ++ [NUL]).
Proof.
  intros Ha Ht. unfold snprintf.
  rewrite blit_all by (rewrite length_app, length_take; simpl; lia). simpl.
  rewrite store_in_bounds by (rewrite length_app, length_take; simpl; lia).
  f_equal. rewrite insert_app_r_alt by (rewrite length_take; lia).
  rewrite length_take. replace (n - n `min` length text) with 0 by lia.
  reflexivity.
Qed.

Lemma Done_inj {A : Type} (a b : A) : Done a = Done b -> a = b.
Proof. now intros [= ->]. Qed.

Lemma obind_Done {A B : Type} (a : A) (k : A -> outcome B) :
  (do! x := Done a in k x) = k a.
Proof. reflexivity. Qed.

Lemma obind_assoc {A B C : Type} (c : outcome A) (f : A -> outcome B) (g : B -> outcome C) :
  (do! y := (do! x := c in f x) in g y) = (do! x := c in do! y := f x in g y).
Proof. destruct c; reflexivity. Qed.

Lemma snprintf_terminate_k {B : Type} (a text : bytes) (n : nat) (k : bytes -> outcome B) :
  length a = n + 1 -> n <= length text ->
  (do! a := snprintf a 0 (n + 1) text in do! a := store a n NUL in k a) =
  k (take n text ++ [NUL]).
Proof.
  intros Ha Ht. rewrite <- obind_assoc. replace (n + 1) with (S n) in * by lia.
  now rewrite snprintf_terminate.
Qed.

Lemma strncpy_terminate_k {B : Type} (a s : bytes) (n : nat) (k : bytes -> outcome B) :
  length a = n + 1 ->
  (do! a := strncpy a (Some s) (n + 1) in do! a := store a n NUL in k a) =
  k (take n (c_str s) ++ replicate (S n - length (take n (c_str s))) NUL).
Proof.
  intros Ha. rewrite <- obind_assoc. replace (n + 1) with (S n) in * by lia.
  now rewrite strncpy_terminate.
Qed.

Lemma snprintf_at_in_bounds (buf : bytes) (off size : nat) (text : bytes) :
  0 < size -> off + size <= length buf ->
  snprintf_at (Some buf) off size text =
  Done (Some (take off buf ++ take (size - 1) text ++
              NUL :: drop (off + length (take (size - 1) text) + 1) buf)).
Proof.
  intros Hs Hb. unfold snprintf_at, snprintf.
  destruct size as [|k]; [lia|]. simpl. rewrite Nat.sub_0_r.
  assert (Hl : length (take k text ++ [NUL]) = length (take k text) + 1)
    by (rewrite length_app; reflexivity).
  rewrite blit_in_bounds by (rewrite Hl, length_take; lia).
  simpl. rewrite Hl, <- app_assoc, Nat.add_assoc. reflexivity.
Qed.

Lemma snprintf_at_length (p : option bytes) (off size : nat) (text buf' : bytes) :
  snprintf_at p off size text = Done (Some buf') ->
  exists buf, p = Some buf /\ length buf' = length buf.
Proof.
  destruct p as [buf|]; simpl; [|discriminate].
  unfold snprintf. destruct size as [|k]; simpl.
  - intros [= <-]. eauto.
  - destruct (blit buf off (take k text ++ [NUL])) as [b|] eqn:E; simpl; [|discriminate].
    intros [= <-]. exists buf. split; [reflexivity|]. eapply blit_length, E.
Qed.

(** ** Facts about the header *)

Lemma c_str_idem (m : bytes) : c_str (c_str m) = c_str m.
Proof. apply c_str_id, c_str_no_nul. Qed.

Lemma VB_LOG_FMT_c_str (a b c d : bytes) (h m s ms : Z) :
  VB_LOG_FMT a b c d h m s ms = VB_LOG_FMT (c_str a) (c_str b) (c_str c) (c_str d) h m s ms.
Proof. unfold VB_LOG_FMT, fmt_s. now rewrite !c_str_idem. Qed.

Lemma VB_LOG_FMT_length (a b c d : bytes) (h m s ms : Z) :
  VB_LOG_MAX_HDR_LEN <= length (VB_LOG_FMT a b c d h m s ms).
Proof.
  unfold VB_LOG_FMT. rewrite !length_app, !fmt_s_length.
  pose proof (fmt_0d_length 2 h). pose proof (fmt_0d_length 2 m).
  pose proof (fmt_0d_length 2 s). pose proof (fmt_0d_length 3 ms).
  change VB_LOG_MAX_HDR_LEN with 106. simpl length. lia.
Qed.

Lemma VB_LOG_FMT_no_nul (a b c d : bytes) (h m s ms : Z) :
  no_nul (VB_LOG_FMT a b c d h m s ms).
Proof.
  unfold VB_LOG_FMT.
  repeat (apply no_nul_app;
          [first [apply fmt_s_no_nul | apply fmt_0d_no_nul
                 | apply no_nul_lit; reflexivity]|]).
  apply no_nul_lit; reflexivity.
Qed.

Lemma header_text_length (names : Z -> bytes) (mode : Z) (f : bytes) (line : Z)
    (fn : bytes) (tmu : tm) (usec : Z) :
  length (header_text names mode f line fn tmu usec) = VB_LOG_MAX_HDR_LEN.
Proof.
  unfold header_text. rewrite length_take.
  pose proof (VB_LOG_FMT_length
    (take VB_LOG_MAX_MODE_LEN (fmt_s 7 (names mode)))
    (take VB_LOG_MAX_FILE_LEN (c_str f))
    (take VB_LOG_MAX_LINENUM_LEN (fmt_0u 5 (INT16U_of line)))
    (take VB_LOG_MAX_FUNC_LEN (c_str fn))
    (tm_hour tmu) (tm_min tmu) (tm_sec tmu) (msec_of usec)).
  lia.
Qed.

Lemma header_text_no_nul (names : Z -> bytes) (mode : Z) (f : bytes) (line : Z)
    (fn : bytes) (tmu : tm) (usec : Z) :
  no_nul (header_text names mode f line fn tmu usec).
Proof. apply no_nul_take, VB_LOG_FMT_no_nul. Qed.

Section HeaderFacts.

Variable VB_LOG_LAST : Z.
Variable VbVerboseLevelToStr : Z -> bytes.

(** What [VbLogHdrBuild] writes when its guard holds and the local time
    is available: the header text and its terminator, at [dst]. *)
Lemma VbLogHdrBuild_built (d : bytes) (mode : Z) (f : bytes) (line : Z) (fn : bytes)
    (e : env) (tmu : tm) :
  (mode < VB_LOG_LAST)%Z ->
  localtime e = Some tmu ->
  VB_LOG_MAX_HDR_LEN + 1 <= length d ->
  VbLogHdrBuild VB_LOG_LAST VbVerboseLevelToStr (Some d) mode (Some f) line (Some fn) e =
  Done (Some (header_text VbVerboseLevelToStr mode f line fn tmu (tv_usec e) ++
              NUL :: drop (VB_LOG_MAX_HDR_LEN + 1) d)).
Proof.
  intros Hmode Htm Hd. unfold VbLogHdrBuild.
  apply Z.ltb_lt in Hmode. rewrite Hmode, Htm.
  rewrite snprintf_terminate_k
    by (rewrite ?local_array_length, ?fmt_s_length; unfold VB_LOG_MAX_MODE_LEN; lia).
  unfold file_name_copy. rewrite obind_assoc.
  rewrite strncpy_terminate_k by (now rewrite local_array_length).
  rewrite snprintf_terminate_k
    by (rewrite ?local_array_length; try reflexivity; apply fmt_0u_length).
  unfold func_name_copy. rewrite obind_assoc.
  rewrite strncpy_terminate_k by (now rewrite local_array_length).
  rewrite VB_LOG_FMT_c_str.
  rewrite !strncpy_terminate_c_str.
  rewrite !(c_str_stop _ []).
  rewrite (c_str_id (take VB_LOG_MAX_MODE_LEN _)) by apply no_nul_take, fmt_s_no_nul.
  rewrite (c_str_id (take VB_LOG_MAX_LINENUM_LEN _)) by apply no_nul_take, fmt_0u_no_nul.
  rewrite snprintf_at_in_bounds by lia.
  change (VB_LOG_MAX_HDR_LEN + 1 - 1) with VB_LOG_MAX_HDR_LEN.
  fold (header_text VbVerboseLevelToStr mode f line fn tmu (tv_usec e)).
  rewrite header_text_length. reflexivity.
Qed.

(** With a NULL name, an out-of-range level or no local time, nothing is
    written. *)
Lemma VbLogHdrBuild_skipped (dst : option bytes) (mode : Z) (file : option bytes)
    (line : Z) (function : option bytes) (e : env) :
  file = None \/ function = None \/ (VB_LOG_LAST <= mode)%Z \/ localtime e = None ->
  VbLogHdrBuild VB_LOG_LAST VbVerboseLevelToStr dst mode file line function e = Done dst.
Proof.
  intros H. unfold VbLogHdrBuild.
  destruct dst as [d|], file as [f|], function as [fn|]; try reflexivity.
  destruct (Z.ltb_spec mode VB_LOG_LAST); [|reflexivity].
  destruct (localtime e); [|reflexivity].
  destruct H as [H|[H|[H|H]]]; try discriminate. lia.
Qed.

End HeaderFacts.

(** ** Facts about the two logging calls *)

Ltac sizes :=
  unfold VB_LOG_EXT_ENTRY_LEN, VB_LOG_MAX_EXT_HDR_LEN, VB_LOG_MAX_DRIVER_HDR_LEN,
    VB_LOG_ENTRY_LEN, VB_LOG_MAX_HDR_LEN, VB_LOG_MAX_LINE_LEN, VB_LOG_MAX_FILE_LEN,
    VB_LOG_MAX_LINENUM_LEN, VB_LOG_MAX_FUNC_LEN, VB_LOG_MAX_MODE_LEN,
    VB_LOG_MAX_EXTRA_LEN in *;
  lia.

Lemma emit_extend (ev : event) (st : log_state) (new : list event) :
  emit ev (extend st new) = extend st (new ++ [ev]).
Proof. unfold emit, extend. simpl. now rewrite app_assoc. Qed.

Lemma emit_as_extend (ev : event) (st : log_state) : emit ev st = extend st [ev].
Proof. reflexivity. Qed.

Lemma extend_extend (st : log_state) (a b : list event) :
  extend (extend st a) b = extend st (a ++ b).
Proof. unfold extend. simpl. now rewrite app_assoc. Qed.

Lemma extend_nil (st : log_state) : extend st [] = st.
Proof. destruct st. unfold extend. simpl. now rewrite app_nil_r. Qed.

Lemma sink_lines_app (a b : list event) :
  sink_lines (a ++ b) = sink_lines a ++ sink_lines b.
Proof.
  induction a as [|[]]; simpl; try assumption; [reflexivity|]. now f_equal.
Qed.

Lemma stderr_text_app (a b : list event) :
  stderr_text (a ++ b) = stderr_text a ++ stderr_text b.
Proof.
  induction a as [|[]]; simpl; try assumption; [reflexivity|].
  rewrite <- app_assoc. now f_equal.
Qed.

(** The C string of a block whose first [k] characters are kept and
    followed by [x], the block holding [p] and a terminator. *)
Lemma c_str_overwrite (p r x : bytes) (k : nat) :
  no_nul p ->
  c_str (take k (p ++ NUL :: r) ++ x) =
  if k <=? length p then take k p ++ c_str x else p.
Proof.
  intros Hp. destruct (Nat.leb_spec k (length p)) as [Hk|Hk].
  - rewrite take_app_le by lia. apply c_str_app, no_nul_take, Hp.
  - rewrite take_app_ge by lia.
    destruct (k - length p) as [|j] eqn:E; [lia|]. simpl.
    rewrite <- app_assoc. simpl. rewrite c_str_stop. now apply c_str_id.
Qed.

(** The last two statements of both logging calls: the message is
    formatted at offset [k], the block goes to the sink. *)
Lemma message_then_syslog (p r msg : bytes) (k : nat) (st : log_state) :
  no_nul p ->
  k + VB_LOG_MAX_LINE_LEN <= length (p ++ NUL :: r) ->
  (do! log_line := snprintf_at (Some (p ++ NUL :: r)) k VB_LOG_MAX_LINE_LEN msg in
   syslog log_line st) =
  Done (emit (EvSyslog (if k <=? length p then take k p ++ body_text msg else p)) st).
Proof.
  intros Hp Hk.
  rewrite snprintf_at_in_bounds by (unfold VB_LOG_MAX_LINE_LEN in *; lia).
  rewrite obind_Done. unfold syslog. do 3 f_equal.
  rewrite c_str_overwrite by assumption.
  destruct (k <=? length p); [|reflexivity].
  f_equal. unfold body_text. apply c_str_stop.
Qed.

Lemma VB_LOG_DRIVER_ID_FMT_c_str (a : bytes) :
  VB_LOG_DRIVER_ID_FMT a = VB_LOG_DRIVER_ID_FMT (c_str a).
Proof. unfold VB_LOG_DRIVER_ID_FMT, fmt_s_left. now rewrite c_str_idem. Qed.

Lemma VB_LOG_DRIVER_ID_FMT_no_nul (a : bytes) : no_nul (VB_LOG_DRIVER_ID_FMT a).
Proof.
  unfold VB_LOG_DRIVER_ID_FMT.
  apply no_nul_app; [apply no_nul_lit; reflexivity|].
  apply no_nul_app; [apply fmt_s_left_no_nul | apply no_nul_lit; reflexivity].
Qed.

Lemma driver_field_no_nul (n : nat) (id : bytes) : no_nul (driver_field n id).
Proof. apply no_nul_take, VB_LOG_DRIVER_ID_FMT_no_nul. Qed.

Lemma driver_field_length (n : nat) (id : bytes) :
  length (driver_field n id) =
  Nat.min (n + 1) (2 + Nat.max 20 (Nat.min (n - 1) (length (c_str id)))).
Proof.
  unfold driver_field, VB_LOG_MAX_DRIVER_HDR_LEN, VB_LOG_DRIVER_ID_FMT.
  rewrite length_take, !length_app, fmt_s_left_length.
  rewrite (c_str_id (take _ _)) by apply no_nul_take, c_str_no_nul.
  rewrite length_take. simpl length. lia.
Qed.

Lemma body_text_length (msg : bytes) : length (body_text msg) <= VB_LOG_MAX_LINE_LEN - 1.
Proof.
  unfold body_text. etransitivity; [apply c_str_length|].
  rewrite length_take. lia.
Qed.

Section CallFacts.

Variable VB_LOG_LAST : Z.
Variable VbVerboseLevelToStr : Z -> bytes.
Variable VB_EA_DRIVER_ID_MAX_SIZE : nat.

Local Abbreviation VbLogPrint := (VbLogPrint_helper VB_LOG_LAST VbVerboseLevelToStr).
Local Abbreviation VbLogPrintExt :=
  (VbLogPrintExt_helper VB_LOG_LAST VbVerboseLevelToStr VB_EA_DRIVER_ID_MAX_SIZE).
Local Abbreviation EXT_SIZE := (VB_LOG_EXT_ENTRY_LEN VB_EA_DRIVER_ID_MAX_SIZE + 1).

Lemma VbLogPrint_filtered file line function L msg e st :
  (vbLogVerbose st < L)%Z ->
  VbLogPrint file line function L msg e st = Done st.
Proof.
  intros H. unfold VbLogPrint_helper.
  destruct (Z.leb_spec L (vbLogVerbose st)); [lia | reflexivity].
Qed.

Lemma VbLogPrintExt_filtered file line function L driverId msg e st :
  (vbLogVerbose st < L)%Z ->
  VbLogPrintExt file line function L driverId msg e st = Done st.
Proof.
  intros H. unfold VbLogPrintExt_helper.
  destruct (Z.leb_spec L (vbLogVerbose st)); [lia | reflexivity].
Qed.

Lemma VbLogPrint_no_memory file line function L msg e st :
  (L <= vbLogVerbose st)%Z -> calloc_ok e = false ->
  VbLogPrint file line function L msg e st =
  Done (extend st [EvCalloc (VB_LOG_ENTRY_LEN + 1);
                   EvStderr (no_memory_text (VB_LOG_ENTRY_LEN + 1));
                   EvStderr [ascii_of_nat 10]]).
Proof.
  intros HL Hc. unfold VbLogPrint_helper, calloc.
  apply Z.leb_le in HL. rewrite HL, Hc.
  unfold VbLogErrorPrint. rewrite !emit_as_extend, !extend_extend. reflexivity.
Qed.

Lemma VbLogPrintExt_no_memory file line function L driverId msg e st :
  (L <= vbLogVerbose st)%Z -> calloc_ok e = false ->
  VbLogPrintExt file line function L driverId msg e st =
  Done (extend st [EvCalloc EXT_SIZE;
                   EvStderr (no_memory_text EXT_SIZE);
                   EvStderr [ascii_of_nat 10]]).
Proof.
  intros HL Hc. unfold VbLogPrintExt_helper, calloc.
  apply Z.leb_le in HL. rewrite HL, Hc.
  unfold VbLogErrorPrint. rewrite !emit_as_extend, !extend_extend. reflexivity.
Qed.

Lemma VbLogPrint_built f line fn L msg e st tmu :
  (L <= vbLogVerbose st)%Z -> calloc_ok e = true ->
  (L < VB_LOG_LAST)%Z -> localtime e = Some tmu ->
  VbLogPrint (Some f) line (Some fn) L msg e st =
  Done (extend st [EvCalloc (VB_LOG_ENTRY_LEN + 1);
                   EvSyslog (header_text VbVerboseLevelToStr L f line fn tmu (tv_usec e)
                             ++ body_text msg)]).
Proof.
  intros HL Hc Hm Ht. unfold VbLogPrint_helper, calloc.
  apply Z.leb_le in HL. rewrite HL, Hc.
  rewrite (VbLogHdrBuild_built _ _ _ _ _ _ _ _ tmu Hm Ht)
    by (rewrite length_replicate; sizes).
  rewrite obind_Done. cbv zeta.
  rewrite message_then_syslog.
  - rewrite header_text_length, Nat.leb_refl.
    rewrite take_ge by (rewrite header_text_length; reflexivity).
    rewrite !emit_as_extend, extend_extend. reflexivity.
  - apply header_text_no_nul.
  - rewrite length_app, header_text_length, length_cons.
    rewrite length_drop, length_replicate. sizes.
Qed.

Lemma VbLogPrint_skipped file line function L msg e st :
  (L <= vbLogVerbose st)%Z -> calloc_ok e = true ->
  file = None \/ function = None \/ (VB_LOG_LAST <= L)%Z \/ localtime e = None ->
  VbLogPrint file line function L msg e st =
  Done (extend st [EvCalloc (VB_LOG_ENTRY_LEN + 1); EvSyslog []]).
Proof.
  intros HL Hc Hs. unfold VbLogPrint_helper, calloc.
  apply Z.leb_le in HL. rewrite HL, Hc.
  rewrite VbLogHdrBuild_skipped by assumption. rewrite obind_Done. cbv zeta.
  change (replicate (VB_LOG_ENTRY_LEN + 1) NUL)
    with ([] ++ NUL :: replicate VB_LOG_ENTRY_LEN NUL).
  rewrite message_then_syslog; [| constructor |].
  - rewrite !emit_as_extend, extend_extend. reflexivity.
  - rewrite app_nil_l, length_cons, length_replicate. sizes.
Qed.

End CallFacts.

Lemma strncpy_terminate_S {B : Type} (a s : bytes) (n : nat) (k : bytes -> outcome B) :
  length a = S n ->
  (do! a := strncpy a (Some s) (S n) in do! a := store a (S n - 1) NUL in k a) =
  k (take n (c_str s) ++ replicate (S n - length (take n (c_str s))) NUL).
Proof.
  intros Ha. replace (S n - 1) with n by lia.
  rewrite <- obind_assoc. now rewrite strncpy_terminate.
Qed.

Lemma VbLogPrintExt_built LAST names N f line fn L id msg e st tmu :
  1 <= N ->
  (L <= vbLogVerbose st)%Z -> calloc_ok e = true ->
  (L < LAST)%Z -> localtime e = Some tmu ->
  VbLogPrintExt_helper LAST names N (Some f) line (Some fn) L (Some id) msg e st =
  Done (extend st [EvCalloc (VB_LOG_EXT_ENTRY_LEN N + 1);
                   EvSyslog (ext_line N (header_text names L f line fn tmu (tv_usec e))
                               id msg)]).
Proof.
  intros HN HL Hc Hm Ht. unfold VbLogPrintExt_helper, calloc.
  apply Z.leb_le in HL. rewrite HL, Hc. cbv zeta.
  rewrite (VbLogHdrBuild_built _ _ _ _ _ _ _ _ tmu Hm Ht)
    by (rewrite length_replicate; sizes).
  rewrite obind_Done.
  destruct N as [|n]; [lia|].
  unfold driver_id_copy. rewrite obind_assoc.
  rewrite strncpy_terminate_S by apply local_array_length.
  rewrite VB_LOG_DRIVER_ID_FMT_c_str, strncpy_terminate_c_str.
  set (hdr := header_text names L f line fn tmu (tv_usec e)).
  assert (Hh : length hdr = VB_LOG_MAX_HDR_LEN) by apply header_text_length.
  rewrite snprintf_at_in_bounds;
    [| sizes | rewrite length_app, Hh, length_cons, length_drop, length_replicate; sizes].
  rewrite obind_Done.
  rewrite (take_app_length' hdr) by (symmetry; exact Hh).
  replace (take (VB_LOG_MAX_DRIVER_HDR_LEN (S n) - 1)
             (VB_LOG_DRIVER_ID_FMT (take n (c_str id))))
    with (driver_field (S n) id)
    by (unfold driver_field; now replace (S n - 1) with n by lia).
  set (fld := driver_field (S n) id).
  assert (Hf : length fld <= VB_LOG_MAX_DRIVER_HDR_LEN (S n) - 1).
  { unfold fld. rewrite driver_field_length. sizes. }
  rewrite (app_assoc hdr fld).
  rewrite message_then_syslog.
  - rewrite !emit_as_extend, extend_extend. do 4 f_equal.
    unfold ext_line. fold fld. rewrite length_app, Hh.
    destruct (Nat.leb_spec (VB_LOG_MAX_DRIVER_HDR_LEN (S n) - 1) (length fld)) as [H1|H1].
    + destruct (Nat.leb_spec (VB_LOG_MAX_HDR_LEN + (VB_LOG_MAX_DRIVER_HDR_LEN (S n) - 1))
                  (VB_LOG_MAX_HDR_LEN + length fld)); [|lia].
      rewrite take_ge by (rewrite length_app; lia). now rewrite <- app_assoc.
    + destruct (Nat.leb_spec (VB_LOG_MAX_HDR_LEN + (VB_LOG_MAX_DRIVER_HDR_LEN (S n) - 1))
                  (VB_LOG_MAX_HDR_LEN + length fld)); [lia|].
      now rewrite app_nil_r.
  - apply no_nul_app; [apply header_text_no_nul | apply driver_field_no_nul].
  - rewrite !length_app, Hh, length_cons, length_drop, !length_app, Hh, length_cons.
    rewrite length_drop, length_replicate. sizes.
Qed.

Lemma VbLogPrintExt_skipped LAST names N file line function L id msg e st :
  1 <= N ->
  (L <= vbLogVerbose st)%Z -> calloc_ok e = true ->
  file = None \/ function = None \/ (LAST <= L)%Z \/ localtime e = None ->
  VbLogPrintExt_helper LAST names N file line function L (Some id) msg e st =
  Done (extend st [EvCalloc (VB_LOG_EXT_ENTRY_LEN N + 1); EvSyslog []]).
Proof.
  intros HN HL Hc Hs. unfold VbLogPrintExt_helper, calloc.
  apply Z.leb_le in HL. rewrite HL, Hc. cbv zeta.
  rewrite VbLogHdrBuild_skipped by assumption. rewrite obind_Done.
  destruct N as [|n]; [lia|].
  unfold driver_id_copy. rewrite obind_assoc.
  rewrite strncpy_terminate_S by apply local_array_length.
  rewrite snprintf_at_in_bounds; [| sizes | rewrite length_replicate; sizes].
  rewrite obind_Done.
  rewrite take_replicate.
  replace (VB_LOG_MAX_HDR_LEN `min` (VB_LOG_EXT_ENTRY_LEN (S n) + 1))
    with (S (VB_LOG_MAX_HDR_LEN - 1)) by sizes.
  rewrite replicate_S.
  rewrite <- app_comm_cons.
  match goal with
  | |- context [snprintf_at (Some (NUL :: ?r))] => change (NUL :: r) with ([] ++ NUL :: r)
  end.
  rewrite message_then_syslog; [| constructor |].
  - rewrite !emit_as_extend, extend_extend. reflexivity.
  - rewrite app_nil_l, length_cons, !length_app, length_replicate, length_cons.
    rewrite length_drop, length_replicate, length_take.
    sizes.
Qed.

(** An extended call without driver identifier that gets as far as the
    copy reads through NULL. *)
Lemma VbLogPrintExt_null_driver LAST names N file line function L msg e st :
  (L <= vbLogVerbose st)%Z -> calloc_ok e = true ->
  VbLogPrintExt_helper LAST names N file line function L None msg e st = Fault.
Proof.
  intros HL Hc. unfold VbLogPrintExt_helper, calloc.
  apply Z.leb_le in HL. rewrite HL, Hc. cbv zeta.
  destruct (VbLogHdrBuild _ _ _ _ _ _ _ _); reflexivity.
Qed.

Lemma lines_emitted_extend (st : log_state) (new : list event) :
  lines_emitted st (Done (extend st new)) = sink_lines new.
Proof.
  unfold lines_emitted, extend. simpl. rewrite sink_lines_app. apply drop_app_length.
Qed.

Lemma ext_line_length (N : nat) (hdr id msg : bytes) :
  length (ext_line N hdr id msg) <=
  length hdr + (VB_LOG_MAX_DRIVER_HDR_LEN N - 1) + (VB_LOG_MAX_LINE_LEN - 1).
Proof.
  unfold ext_line. rewrite !length_app.
  pose proof (body_text_length msg). pose proof (driver_field_length N id).
  destruct (_ <=? _); simpl length; sizes.
Qed.

(** ** The line of a call that is past the gate and has its buffer *)

Lemma VbLogPrint_line LAST names file line function L msg e st :
  (L <= vbLogVerbose st)%Z -> calloc_ok e = true ->
  VbLogPrint_helper LAST names file line function L msg e st =
  Done (extend st [EvCalloc (VB_LOG_ENTRY_LEN + 1);
                   EvSyslog (plain_entry LAST names file line function L msg e)]).
Proof.
  intros HL Hc. unfold plain_entry.
  destruct file as [f|]; [|apply VbLogPrint_skipped; auto].
  destruct function as [fn|]; [|apply VbLogPrint_skipped; auto].
  destruct (localtime e) as [tmu|] eqn:Ht; [|apply VbLogPrint_skipped; auto].
  destruct (Z.ltb_spec L LAST) as [Hm|Hm]; [|apply VbLogPrint_skipped; auto].
  eapply VbLogPrint_built; eassumption.
Qed.

Lemma VbLogPrintExt_line LAST names N file line function L id msg e st :
  1 <= N -> (L <= vbLogVerbose st)%Z -> calloc_ok e = true ->
  VbLogPrintExt_helper LAST names N file line function L (Some id) msg e st =
  Done (extend st [EvCalloc (VB_LOG_EXT_ENTRY_LEN N + 1);
                   EvSyslog (ext_entry LAST names N file line function L id msg e)]).
Proof.
  intros HN HL Hc. unfold ext_entry.
  destruct file as [f|]; [|apply VbLogPrintExt_skipped; auto].
  destruct function as [fn|]; [|apply VbLogPrintExt_skipped; auto].
  destruct (localtime e) as [tmu|] eqn:Ht; [|apply VbLogPrintExt_skipped; auto].
  destruct (Z.ltb_spec L LAST) as [Hm|Hm]; [|apply VbLogPrintExt_skipped; auto].
  eapply VbLogPrintExt_built; eassumption.
Qed.

Lemma plain_entry_length LAST names file line function L msg e :
  length (plain_entry LAST names file line function L msg e) <=
  VB_LOG_MAX_HDR_LEN + (VB_LOG_MAX_LINE_LEN - 1).
Proof.
  unfold plain_entry.
  destruct file, function, (localtime e); try (simpl length; lia).
  destruct (L <? LAST)%Z; [|simpl length; lia].
  rewrite length_app, header_text_length. pose proof (body_text_length msg). lia.
Qed.

Lemma ext_entry_length LAST names N file line function L id msg e :
  length (ext_entry LAST names N file line function L id msg e) <=
  VB_LOG_MAX_HDR_LEN + (VB_LOG_MAX_DRIVER_HDR_LEN N - 1) + (VB_LOG_MAX_LINE_LEN - 1).
Proof.
  unfold ext_entry.
  destruct file, function, (localtime e); try (simpl length; lia).
  destruct (L <? LAST)%Z; [|simpl length; lia].
  etransitivity; [apply ext_line_length|]. rewrite header_text_length. lia.
Qed.

Lemma driver_id_copy_cut (N : nat) (e : env) (id : bytes) :
  1 <= N ->
  driver_id_copy N e (Some id) =
  Done (take (N - 1) (c_str id) ++
        replicate (N - length (take (N - 1) (c_str id))) NUL).
Proof.
  intros HN. destruct N as [|n]; [lia|]. unfold driver_id_copy.
  replace (S n - 1) with n by lia.
  apply strncpy_terminate, local_array_length.
Qed.

(** The driver field of an identifier that fills its array: the bracket,
    the characters the array holds and, according to what is left of
    [VB_LOG_MAX_DRIVER_HDR_LEN], the closing bracket or one blank. *)
Lemma driver_field_cut (N : nat) (id : bytes) :
  1 <= N -> N - 1 <= length (c_str id) ->
  driver_field N id =
    lit "[" ++ take (N - 1) (c_str id) ++ (if 21 <=? N then lit "]" else lit " ") /\
  length (driver_field N id) = N + 1.
Proof.
  intros HN Hid.
  assert (Hfield : driver_field N id =
            lit "[" ++ take (N - 1) (c_str id) ++ (if 21 <=? N then lit "]" else lit " ")).
  { unfold driver_field, VB_LOG_MAX_DRIVER_HDR_LEN, VB_LOG_DRIVER_ID_FMT, fmt_s_left.
    cbv zeta. rewrite (c_str_id (take _ _)) by apply no_nul_take, c_str_no_nul.
    set (cut := take (N - 1) (c_str id)).
    assert (Hcut : length cut = N - 1) by (unfold cut; rewrite length_take; lia).
    rewrite Hcut.
    destruct (Nat.leb_spec 21 N) as [H21|H21].
    - replace (20 - (N - 1)) with 0 by lia. cbn [replicate]. rewrite app_nil_r.
      apply take_ge. rewrite !length_app, Hcut. simpl length. lia.
    - replace (20 - (N - 1)) with (S (20 - N)) by lia. cbn [replicate].
      change (lit " ") with [SPACE].
      replace (lit "[" ++ (cut ++ SPACE :: replicate (20 - N) SPACE) ++ lit "]")
        with ((lit "[" ++ cut ++ [SPACE]) ++ replicate (20 - N) SPACE ++ lit "]")
        by (now rewrite <- !app_assoc).
      apply take_app_length'. rewrite !length_app, Hcut. simpl length. lia. }
  split; [exact Hfield|]. rewrite Hfield, !length_app, length_take.
  destruct (21 <=? N); simpl length; lia.
Qed.

(** Both calls return, whatever the level, the memory and the names. *)
Lemma VbLogPrint_total LAST names file line function L msg e st :
  exists new,
    VbLogPrint_helper LAST names file line function L msg e st = Done (extend st new).
Proof.
  destruct (Z.le_gt_cases L (vbLogVerbose st)) as [HL|HL].
  - destruct (calloc_ok e) eqn:Hc; eexists.
    + now apply VbLogPrint_line.
    + now apply VbLogPrint_no_memory.
  - exists []. rewrite extend_nil. apply VbLogPrint_filtered. lia.
Qed.

Lemma VbLogPrintExt_total LAST names N file line function L id msg e st :
  1 <= N ->
  exists new,
    VbLogPrintExt_helper LAST names N file line function L (Some id) msg e st =
    Done (extend st new).
Proof.
  intros HN. destruct (Z.le_gt_cases L (vbLogVerbose st)) as [HL|HL].
  - destruct (calloc_ok e) eqn:Hc; eexists.
    + now apply VbLogPrintExt_line.
    + now apply VbLogPrintExt_no_memory.
  - exists []. rewrite extend_nil. apply VbLogPrintExt_filtered. lia.
Qed.

(** No call writes the threshold, whether it returns or faults. *)
Lemma syslog_threshold (p : option bytes) (st st' : log_state) :
  syslog p st = Done st' -> vbLogVerbose st' = vbLogVerbose st.
Proof. destruct p; simpl; [intros [= <-]; reflexivity | discriminate]. Qed.

Lemma VbLogErrorPrint_threshold (text : bytes) (st : log_state) :
  vbLogVerbose (VbLogErrorPrint text st) = vbLogVerbose st.
Proof. reflexivity. Qed.

Lemma emit_threshold (ev : event) (st : log_state) :
  vbLogVerbose (emit ev st) = vbLogVerbose st.
Proof. reflexivity. Qed.

Lemma VbLogPrint_threshold LAST names file line function L msg e st st' :
  VbLogPrint_helper LAST names file line function L msg e st = Done st' ->
  vbLogVerbose st' = vbLogVerbose st.
Proof.
  unfold VbLogPrint_helper.
  destruct (L <=? vbLogVerbose st)%Z; [|intros [= <-]; reflexivity].
  destruct (calloc e _);
    [|intros H; apply Done_inj in H; rewrite <- H;
      now rewrite VbLogErrorPrint_threshold, emit_threshold].
  destruct (VbLogHdrBuild _ _ _ _ _ _ _ _) as [p|]; [|discriminate].
  rewrite obind_Done.
  destruct (snprintf_at _ _ _ _) as [q|]; [|discriminate].
  rewrite obind_Done. intros H. apply syslog_threshold in H.
  now rewrite H, emit_threshold.
Qed.

Lemma VbLogPrintExt_threshold LAST names N file line function L driverId msg e st st' :
  VbLogPrintExt_helper LAST names N file line function L driverId msg e st = Done st' ->
  vbLogVerbose st' = vbLogVerbose st.
Proof.
  unfold VbLogPrintExt_helper.
  destruct (L <=? vbLogVerbose st)%Z; [|intros [= <-]; reflexivity].
  destruct (calloc e _);
    [|intros H; apply Done_inj in H; rewrite <- H;
      now rewrite VbLogErrorPrint_threshold, emit_threshold].
  destruct (VbLogHdrBuild _ _ _ _ _ _ _ _) as [p|]; [|discriminate].
  rewrite obind_Done.
  destruct (driver_id_copy _ _ _) as [a|]; [|discriminate].
  rewrite obind_Done.
  destruct (snprintf_at _ _ _ _) as [q|]; [|discriminate].
  rewrite obind_Done. cbv zeta.
  destruct (snprintf_at _ _ _ _) as [q'|]; [|discriminate].
  rewrite obind_Done. intros H. apply syslog_threshold in H.
  now rewrite H, emit_threshold.
Qed.

Lemma run_calls_threshold LAST names N (cs : list api_call) (st st' : log_state) :
  run_calls LAST names N cs st = Done st' -> vbLogVerbose st' = vbLogVerbose st.
Proof.
  revert st. induction cs as [|c cs IH]; intros st; simpl.
  - intros [= <-]. reflexivity.
  - destruct (run_call LAST names N c st) as [st1|] eqn:E; [|discriminate].
    rewrite obind_Done. intros H. apply IH in H. rewrite H.
    destruct c; simpl in E.
    + eapply VbLogPrint_threshold, E.
    + eapply VbLogPrintExt_threshold, E.
    + now injection E as <-.
Qed.

Lemma run_calls_total LAST names N (cs : list api_call) (st : log_state) :
  1 <= N -> Forall has_driver_id cs ->
  exists new, run_calls LAST names N cs st = Done (extend st new).
Proof.
  intros HN Hcs. revert st.
  induction Hcs as [|c cs Hc _ IH]; intros st; simpl.
  - exists []. now rewrite extend_nil.
  - assert (H1 : exists new, run_call LAST names N c st = Done (extend st new)).
    { destruct c as [f l fn L m e | f l fn L [id|] m e |]; simpl.
      - apply VbLogPrint_total.
      - now apply VbLogPrintExt_total.
      - destruct Hc.
      - exists []. now rewrite extend_nil. }
    destruct H1 as (new1 & ->). rewrite obind_Done.
    destruct (IH (extend st new1)) as (new2 & ->).
    exists (new1 ++ new2). now rewrite extend_extend.
Qed.

(** ** Facts about the decimal fields *)

Lemma utoa_width_3 (m : Z) : (0 <= m <= 999)%Z -> length (utoa m) <= 3.
Proof.
  intros Hm.
  assert (H : forallb (fun n => length (utoa (Z.of_nat n)) <=? 3) (seq 0 1000) = true)
    by (vm_compute; reflexivity).
  rewrite forallb_forall in H.
  specialize (H (Z.to_nat m)). rewrite Z2Nat.id in H by lia.
  apply Nat.leb_le, H, in_seq. lia.
Qed.

Lemma utoa_width_2 (m : Z) : (0 <= m <= 99)%Z -> length (utoa m) <= 2.
Proof.
  intros Hm.
  assert (H : forallb (fun n => length (utoa (Z.of_nat n)) <=? 2) (seq 0 100) = true)
    by (vm_compute; reflexivity).
  rewrite forallb_forall in H.
  specialize (H (Z.to_nat m)). rewrite Z2Nat.id in H by lia.
  apply Nat.leb_le, H, in_seq. lia.
Qed.

Lemma fmt_0d_3_exact (m : Z) : (0 <= m <= 999)%Z -> length (fmt_0d 3 m) = 3.
Proof.
  intros Hm. unfold fmt_0d. destruct (Z.ltb_spec m 0); [lia|].
  unfold fmt_0u. cbv zeta. rewrite length_app, length_replicate.
  pose proof (utoa_width_3 m Hm). lia.
Qed.

Lemma fmt_0d_2_exact (m : Z) : (0 <= m <= 99)%Z -> length (fmt_0d 2 m) = 2.
Proof.
  intros Hm. unfold fmt_0d. destruct (Z.ltb_spec m 0); [lia|].
  unfold fmt_0u. cbv zeta. rewrite length_app, length_replicate.
  pose proof (utoa_width_2 m Hm). lia.
Qed.

Lemma msec_of_range (usec : Z) : (0 <= msec_of usec <= 999)%Z.
Proof.
  unfold msec_of, INT32U_of. cbv zeta.
  pose proof (Z.mod_pos_bound (Z.quot usec 1000) 4294967296 ltac:(lia)).
  destruct (Z.geb_spec (Z.quot usec 1000 mod 4294967296) 1000); lia.
Qed.

Lemma msec_of_clamp (usec : Z) :
  (0 <= usec < 4294967296000)%Z -> msec_of usec = Z.min (usec / 1000) 999.
Proof.
  intros Hu. unfold msec_of, INT32U_of. cbv zeta.
  rewrite Z.quot_div_nonneg by lia.
  assert (0 <= usec / 1000 < 4294967296)%Z.
  { split; [apply Z.div_pos; lia | apply Z.div_lt_upper_bound; lia]. }
  rewrite Z.mod_small by assumption.
  destruct (Z.geb_spec (usec / 1000) 1000); lia.
Qed.

Lemma fmt_s_take_exact (w : nat) (x : bytes) :
  no_nul x -> length (fmt_s w (take w x)) = w.
Proof.
  intros Hx. rewrite fmt_s_length, c_str_id by now apply no_nul_take.
  rewrite length_take. lia.
Qed.

(** With clock fields of two digits the header text is not cut, and ends
    in the three digits of the milliseconds and ["ms]"]. *)
Lemma header_text_tail (names : Z -> bytes) (mode : Z) (f : bytes) (line : Z)
    (fn : bytes) (tmu : tm) (usec : Z) :
  tm_in_range tmu ->
  exists front,
    header_text names mode f line fn tmu usec =
    front ++ fmt_0d 3 (msec_of usec) ++ lit "ms]" /\
    length front = VB_LOG_MAX_HDR_LEN - 6.
Proof.
  intros (Hh & Hm & Hs). unfold header_text, VB_LOG_FMT.
  set (a := fmt_s 7 (take VB_LOG_MAX_MODE_LEN (fmt_s 7 (names mode)))).
  set (b := fmt_s 30 (take VB_LOG_MAX_FILE_LEN (c_str f))).
  set (c := fmt_s 5 (take VB_LOG_MAX_LINENUM_LEN (fmt_0u 5 (INT16U_of line)))).
  set (d := fmt_s 40 (take VB_LOG_MAX_FUNC_LEN (c_str fn))).
  assert (Ha : length a = 7) by apply fmt_s_take_exact, fmt_s_no_nul.
  assert (Hb : length b = 30) by apply fmt_s_take_exact, c_str_no_nul.
  assert (Hc : length c = 5) by apply fmt_s_take_exact, fmt_0u_no_nul.
  assert (Hd : length d = 40) by apply fmt_s_take_exact, c_str_no_nul.
  pose proof (fmt_0d_2_exact (tm_hour tmu) ltac:(lia)) as H1.
  pose proof (fmt_0d_2_exact (tm_min tmu) ltac:(lia)) as H2.
  pose proof (fmt_0d_2_exact (tm_sec tmu) ltac:(lia)) as H3.
  pose proof (fmt_0d_3_exact _ (msec_of_range usec)) as H4.
  exists (lit "[" ++ a ++ lit "][" ++ b ++ lit "][" ++ c ++ lit "][" ++ d ++ lit "][" ++
          fmt_0d 2 (tm_hour tmu) ++ lit ":" ++ fmt_0d 2 (tm_min tmu) ++ lit ":" ++
          fmt_0d 2 (tm_sec tmu) ++ lit " ").
  split.
  - rewrite take_ge.
    + now rewrite <- !app_assoc.
    + rewrite !length_app, Ha, Hb, Hc, Hd, H1, H2, H3, H4. simpl length. sizes.
  - rewrite !length_app, Ha, Hb, Hc, Hd, H1, H2, H3. simpl length. sizes.
Qed.

(** The name fields of a header, for names at least as long as the fields:
    the first [VB_LOG_MAX_FILE_LEN] and [VB_LOG_MAX_FUNC_LEN] characters
    stand between their brackets. *)
Lemma header_text_fields (names : Z -> bytes) (mode : Z) (f : bytes) (line : Z)
    (fn : bytes) (tmu : tm) (usec : Z) :
  VB_LOG_MAX_FILE_LEN <= length (c_str f) ->
  VB_LOG_MAX_FUNC_LEN <= length (c_str fn) ->
  exists level number clock,
    header_text names mode f line fn tmu usec =
    lit "[" ++ level ++ lit "][" ++ take VB_LOG_MAX_FILE_LEN (c_str f) ++
    lit "][" ++ number ++ lit "][" ++ take VB_LOG_MAX_FUNC_LEN (c_str fn) ++
    lit "][" ++ clock /\
    length level = VB_LOG_MAX_MODE_LEN /\
    length number = VB_LOG_MAX_LINENUM_LEN.
Proof.
  intros Hf Hfn. unfold header_text, VB_LOG_FMT.
  set (a := fmt_s 7 (take VB_LOG_MAX_MODE_LEN (fmt_s 7 (names mode)))).
  set (c := fmt_s 5 (take VB_LOG_MAX_LINENUM_LEN (fmt_0u 5 (INT16U_of line)))).
  set (t := fmt_0d 2 (tm_hour tmu) ++ lit ":" ++ fmt_0d 2 (tm_min tmu) ++ lit ":" ++
            fmt_0d 2 (tm_sec tmu) ++ lit " " ++ fmt_0d 3 (msec_of usec) ++ lit "ms]").
  assert (Ha : length a = 7) by apply fmt_s_take_exact, fmt_s_no_nul.
  assert (Hc : length c = 5) by apply fmt_s_take_exact, fmt_0u_no_nul.
  assert (Hb : fmt_s 30 (take VB_LOG_MAX_FILE_LEN (c_str f)) =
               take VB_LOG_MAX_FILE_LEN (c_str f)).
  { unfold fmt_s. rewrite c_str_id by apply no_nul_take, c_str_no_nul.
    rewrite length_take.
    now replace (30 - VB_LOG_MAX_FILE_LEN `min` length (c_str f)) with 0
      by (unfold VB_LOG_MAX_FILE_LEN in *; lia). }
  assert (Hd : fmt_s 40 (take VB_LOG_MAX_FUNC_LEN (c_str fn)) =
               take VB_LOG_MAX_FUNC_LEN (c_str fn)).
  { unfold fmt_s. rewrite c_str_id by apply no_nul_take, c_str_no_nul.
    rewrite length_take.
    now replace (40 - VB_LOG_MAX_FUNC_LEN `min` length (c_str fn)) with 0
      by (unfold VB_LOG_MAX_FUNC_LEN in *; lia). }
  rewrite Hb, Hd.
  set (b := take VB_LOG_MAX_FILE_LEN (c_str f)).
  set (d := take VB_LOG_MAX_FUNC_LEN (c_str fn)).
  assert (Hlb : length b = 30)
    by (unfold b; rewrite length_take; unfold VB_LOG_MAX_FILE_LEN in *; lia).
  assert (Hld : length d = 40)
    by (unfold d; rewrite length_take; unfold VB_LOG_MAX_FUNC_LEN in *; lia).
  exists a, c, (take 15 t). split; [|split; assumption].
  transitivity
    (take VB_LOG_MAX_HDR_LEN
       ((lit "[" ++ a ++ lit "][" ++ b ++ lit "][" ++ c ++ lit "][" ++ d ++ lit "][")
        ++ t)).
  - f_equal. now rewrite <- !app_assoc.
  - rewrite take_app_ge
      by (rewrite !length_app, Ha, Hlb, Hc, Hld; simpl length; sizes).
    rewrite !length_app, Ha, Hlb, Hc, Hld. simpl length.
    replace (VB_LOG_MAX_HDR_LEN - (1 + (7 + (2 + (30 + (2 + (5 + (2 + (40 + 2)))))))))
      with 15 by sizes.
    now rewrite <- !app_assoc.
Qed.

(** * The statements of the specification *)

Section Claims.

Variable VB_LOG_LAST : Z.
Variable VbVerboseLevelToStr : Z -> bytes.
Variable VB_EA_DRIVER_ID_MAX_SIZE : nat.

Local Abbreviation VbLogPrint := (VbLogPrint_helper VB_LOG_LAST VbVerboseLevelToStr).
Local Abbreviation VbLogPrintExt :=
  (VbLogPrintExt_helper VB_LOG_LAST VbVerboseLevelToStr VB_EA_DRIVER_ID_MAX_SIZE).
Local Abbreviation HdrBuild := (VbLogHdrBuild VB_LOG_LAST VbVerboseLevelToStr).

(** C3, amended.  A file or function name longer than the width of its
    field, [VB_LOG_MAX_FILE_LEN] or [VB_LOG_MAX_FUNC_LEN], is cut to its
    first width characters, not width - 1: the array it is copied into
    has one byte more than the field is wide, and the terminator is put
    in that last byte.  These characters are what the header shows
    between the brackets of the file and of the function.  A driver
    identifier that fills [driver_id_str] is cut to its first
    [VB_EA_DRIVER_ID_MAX_SIZE - 1] characters, and the line of the
    extended call shows these after the header and an opening bracket,
    closed by a bracket when the size is 21 or more and by a blank
    otherwise.  Each copy writes inside its array (it is [Done], and the
    array keeps its size) and reads no more of the name than the array
    is wide. *)
Theorem C3_long_names_are_cut (e : env) (file function driverId : bytes) :
  1 <= VB_EA_DRIVER_ID_MAX_SIZE ->
  (VB_LOG_MAX_FILE_LEN < length (c_str file) ->
   file_name_copy e (Some file) =
   Done (take VB_LOG_MAX_FILE_LEN (c_str file) ++ [NUL])) /\
  (VB_LOG_MAX_FUNC_LEN < length (c_str function) ->
   func_name_copy e (Some function) =
   Done (take VB_LOG_MAX_FUNC_LEN (c_str function) ++ [NUL])) /\
  (VB_EA_DRIVER_ID_MAX_SIZE - 1 < length (c_str driverId) ->
   driver_id_copy VB_EA_DRIVER_ID_MAX_SIZE e (Some driverId) =
   Done (take (VB_EA_DRIVER_ID_MAX_SIZE - 1) (c_str driverId) ++ [NUL])) /\
  (exists a b c,
      file_name_copy e (Some file) = Done a /\
      length a = VB_LOG_MAX_FILE_LEN + 1 /\
      func_name_copy e (Some function) = Done b /\
      length b = VB_LOG_MAX_FUNC_LEN + 1 /\
      driver_id_copy VB_EA_DRIVER_ID_MAX_SIZE e (Some driverId) = Done c /\
      length c = VB_EA_DRIVER_ID_MAX_SIZE) /\
  (forall dst mode line tmu,
      VB_LOG_MAX_FILE_LEN < length (c_str file) ->
      VB_LOG_MAX_FUNC_LEN < length (c_str function) ->
      (mode < VB_LOG_LAST)%Z -> localtime e = Some tmu ->
      VB_LOG_MAX_HDR_LEN + 1 <= length dst ->
      exists level number clock,
        HdrBuild (Some dst) mode (Some file) line (Some function) e =
        Done (Some ((lit "[" ++ level ++
                     lit "][" ++ take VB_LOG_MAX_FILE_LEN (c_str file) ++
                     lit "][" ++ number ++
                     lit "][" ++ take VB_LOG_MAX_FUNC_LEN (c_str function) ++
                     lit "][" ++ clock) ++
                    NUL :: drop (VB_LOG_MAX_HDR_LEN + 1) dst)) /\
        length level = VB_LOG_MAX_MODE_LEN /\
        length number = VB_LOG_MAX_LINENUM_LEN) /\
  (forall line L msg tmu st,
      VB_EA_DRIVER_ID_MAX_SIZE - 1 < length (c_str driverId) ->
      (L <= vbLogVerbose st)%Z -> calloc_ok e = true ->
      (L < VB_LOG_LAST)%Z -> localtime e = Some tmu ->
      VbLogPrintExt (Some file) line (Some function) L (Some driverId) msg e st =
      Done (extend st
              [EvCalloc (VB_LOG_EXT_ENTRY_LEN VB_EA_DRIVER_ID_MAX_SIZE + 1);
               EvSyslog (header_text VbVerboseLevelToStr L file line function tmu
                           (tv_usec e) ++
                         lit "[" ++
                         take (VB_EA_DRIVER_ID_MAX_SIZE - 1) (c_str driverId) ++
                         (if 21 <=? VB_EA_DRIVER_ID_MAX_SIZE then lit "]" else lit " ") ++
                         body_text msg)])) /\
  (forall other : bytes,
      (take (VB_LOG_MAX_FILE_LEN + 1) other = take (VB_LOG_MAX_FILE_LEN + 1) file ->
       file_name_copy e (Some other) = file_name_copy e (Some file)) /\
      (take (VB_LOG_MAX_FUNC_LEN + 1) other = take (VB_LOG_MAX_FUNC_LEN + 1) function ->
       func_name_copy e (Some other) = func_name_copy e (Some function)) /\
      (take VB_EA_DRIVER_ID_MAX_SIZE other = take VB_EA_DRIVER_ID_MAX_SIZE driverId ->
       driver_id_copy VB_EA_DRIVER_ID_MAX_SIZE e (Some other) =
       driver_id_copy VB_EA_DRIVER_ID_MAX_SIZE e (Some driverId))).
Proof.
  intros HN.
  assert (Hfile : forall s n, file_name_copy e (Some s) = Done n ->
                  n = take VB_LOG_MAX_FILE_LEN (c_str s) ++
                      replicate (VB_LOG_MAX_FILE_LEN + 1 -
                                 length (take VB_LOG_MAX_FILE_LEN (c_str s))) NUL).
  { intros s n. unfold file_name_copy.
    replace (VB_LOG_MAX_FILE_LEN + 1) with (S VB_LOG_MAX_FILE_LEN) by lia.
    rewrite strncpy_terminate by apply local_array_length.
    intros H. apply Done_inj in H. now subst. }
  assert (Hfunc : forall s n, func_name_copy e (Some s) = Done n ->
                  n = take VB_LOG_MAX_FUNC_LEN (c_str s) ++
                      replicate (VB_LOG_MAX_FUNC_LEN + 1 -
                                 length (take VB_LOG_MAX_FUNC_LEN (c_str s))) NUL).
  { intros s n. unfold func_name_copy.
    replace (VB_LOG_MAX_FUNC_LEN + 1) with (S VB_LOG_MAX_FUNC_LEN) by lia.
    rewrite strncpy_terminate by apply local_array_length.
    intros H. apply Done_inj in H. now subst. }
  assert (Efile : forall s, exists n, file_name_copy e (Some s) = Done n).
  { intros s. unfold file_name_copy.
    replace (VB_LOG_MAX_FILE_LEN + 1) with (S VB_LOG_MAX_FILE_LEN) by lia.
    rewrite strncpy_terminate by apply local_array_length. eauto. }
  assert (Efunc : forall s, exists n, func_name_copy e (Some s) = Done n).
  { intros s. unfold func_name_copy.
    replace (VB_LOG_MAX_FUNC_LEN + 1) with (S VB_LOG_MAX_FUNC_LEN) by lia.
    rewrite strncpy_terminate by apply local_array_length. eauto. }
  split; [|split; [|split; [|split; [|split; [|split]]]]].
  - intros Hlen. destruct (Efile file) as (n & Hn). rewrite Hn.
    rewrite (Hfile _ _ Hn), length_take.
    now replace (VB_LOG_MAX_FILE_LEN + 1 - VB_LOG_MAX_FILE_LEN `min` length (c_str file))
      with 1 by lia.
  - intros Hlen. destruct (Efunc function) as (n & Hn). rewrite Hn.
    rewrite (Hfunc _ _ Hn), length_take.
    now replace (VB_LOG_MAX_FUNC_LEN + 1 -
                 VB_LOG_MAX_FUNC_LEN `min` length (c_str function))
      with 1 by lia.
  - intros Hlen. rewrite driver_id_copy_cut by assumption. rewrite length_take.
    now replace (VB_EA_DRIVER_ID_MAX_SIZE -
                 (VB_EA_DRIVER_ID_MAX_SIZE - 1) `min` length (c_str driverId))
      with 1 by lia.
  - destruct (Efile file) as (a & Ha). destruct (Efunc function) as (b & Hb).
    exists a, b. eexists.
    rewrite driver_id_copy_cut by assumption.
    repeat split; try eassumption; try reflexivity.
    + rewrite (Hfile _ _ Ha), length_app, length_replicate, length_take. lia.
    + rewrite (Hfunc _ _ Hb), length_app, length_replicate, length_take. lia.
    + rewrite length_app, length_replicate, length_take. lia.
  - intros dst mode line tmu Hf Hfn Hm Ht Hd.
    destruct (header_text_fields VbVerboseLevelToStr mode file line function tmu
                (tv_usec e)) as (level & number & clock & Hhdr & Hl & Hn); [lia..|].
    exists level, number, clock. split; [|split; assumption].
    rewrite <- Hhdr. now apply VbLogHdrBuild_built.
  - intros line L msg tmu st Hid HL Hc Hm Ht.
    rewrite (VbLogPrintExt_built _ _ _ _ _ _ _ _ _ _ _ tmu) by assumption.
    destruct (driver_field_cut VB_EA_DRIVER_ID_MAX_SIZE driverId HN) as (Hfield & Hflen);
      [lia|].
    unfold ext_line. rewrite Hflen.
    replace (VB_LOG_MAX_DRIVER_HDR_LEN VB_EA_DRIVER_ID_MAX_SIZE - 1)
      with (VB_EA_DRIVER_ID_MAX_SIZE + 1) by (unfold VB_LOG_MAX_DRIVER_HDR_LEN; lia).
    rewrite Nat.leb_refl, Hfield. now rewrite <- !app_assoc.
  - intros other. unfold file_name_copy, func_name_copy, driver_id_copy, strncpy.
    repeat split; intros Heq.
    + now rewrite (strncpy_image_reads other), (strncpy_image_reads file), Heq.
    + now rewrite (strncpy_image_reads other), (strncpy_image_reads function), Heq.
    + now rewrite (strncpy_image_reads other), (strncpy_image_reads driverId), Heq.
Qed.

(** C7.  With file and function names that are not NULL, a level below
    the sentinel and any time of day, [VbLogHdrBuild] writes a header of
    exactly [VB_LOG_MAX_HDR_LEN] characters, the sum of the five field
    widths, and its terminator; the plain entry that goes to the sink is
    that header with the message starting at offset
    [VB_LOG_MAX_HDR_LEN]. *)
Theorem C7_header_has_its_static_length (dst : bytes) (mode : Z) (file : bytes)
    (line : Z) (function : bytes) (e : env) (tmu : tm) (msg : bytes) (st : log_state) :
  (mode < VB_LOG_LAST)%Z ->
  localtime e = Some tmu ->
  VB_LOG_MAX_HDR_LEN + 1 <= length dst ->
  exists hdr,
    HdrBuild (Some dst) mode (Some file) line (Some function) e =
    Done (Some (hdr ++ NUL :: drop (VB_LOG_MAX_HDR_LEN + 1) dst)) /\
    c_str (hdr ++ NUL :: drop (VB_LOG_MAX_HDR_LEN + 1) dst) = hdr /\
    length hdr = VB_LOG_MAX_HDR_LEN /\
    VB_LOG_MAX_HDR_LEN =
      VB_LOG_MAX_MODE_LEN + VB_LOG_MAX_FILE_LEN + VB_LOG_MAX_LINENUM_LEN +
      VB_LOG_MAX_FUNC_LEN + VB_LOG_MAX_EXTRA_LEN /\
    ((mode <= vbLogVerbose st)%Z -> calloc_ok e = true ->
     exists text,
       VbLogPrint (Some file) line (Some function) mode msg e st =
       Done (extend st [EvCalloc (VB_LOG_ENTRY_LEN + 1); EvSyslog text]) /\
       take VB_LOG_MAX_HDR_LEN text = hdr /\
       drop VB_LOG_MAX_HDR_LEN text = body_text msg).
Proof.
  intros Hm Ht Hd.
  exists (header_text VbVerboseLevelToStr mode file line function tmu (tv_usec e)).
  split; [now apply VbLogHdrBuild_built|].
  split; [rewrite c_str_stop; apply c_str_id, header_text_no_nul|].
  split; [apply header_text_length|].
  split; [reflexivity|].
  intros HL Hc. eexists. split; [eapply VbLogPrint_built; eassumption|].
  split.
  - apply take_app_length'. now rewrite header_text_length.
  - rewrite <- (header_text_length VbVerboseLevelToStr mode file line function tmu
                  (tv_usec e)).
    apply drop_app_length.
Qed.

(** C8.  For a clock reading of [tv_usec] microseconds (not negative, and
    whose thousandth fits [INT32U]), the milliseconds of the header are
    [tv_usec / 1000], or 999 when that is 1000 or more; the value never
    exceeds 999 and is printed with exactly three digits, which end the
    header before ["ms]"]. *)
Theorem C8_milliseconds_clamped (dst : bytes) (mode : Z) (file : bytes) (line : Z)
    (function : bytes) (e : env) (tmu : tm) :
  (0 <= tv_usec e < 4294967296000)%Z ->
  (mode < VB_LOG_LAST)%Z ->
  localtime e = Some tmu ->
  tm_in_range tmu ->
  VB_LOG_MAX_HDR_LEN + 1 <= length dst ->
  let msec := Z.min (tv_usec e / 1000) 999 in
  msec_of (tv_usec e) = msec /\
  (1000 <= tv_usec e / 1000 -> msec = 999)%Z /\
  (0 <= msec <= 999)%Z /\
  length (fmt_0d 3 msec) = 3 /\
  exists front,
    HdrBuild (Some dst) mode (Some file) line (Some function) e =
    Done (Some ((front ++ fmt_0d 3 msec ++ lit "ms]") ++
                NUL :: drop (VB_LOG_MAX_HDR_LEN + 1) dst)) /\
    length front = VB_LOG_MAX_HDR_LEN - 6.
Proof.
  intros Hu Hm Ht Hr Hd msec.
  assert (E : msec_of (tv_usec e) = msec) by now apply msec_of_clamp.
  pose proof (msec_of_range (tv_usec e)) as R. rewrite E in R.
  split; [exact E|]. split; [unfold msec; lia|]. split; [exact R|].
  split; [now apply fmt_0d_3_exact|].
  destruct (header_text_tail VbVerboseLevelToStr mode file line function tmu
              (tv_usec e) Hr) as (front & Hfront & Hlen).
  exists front. split; [|exact Hlen].
  rewrite <- E, <- Hfront. now apply VbLogHdrBuild_built.
Qed.

(** C6.  When the allocation fails in a call that is past the gate, the
    call returns after writing the diagnostic and a newline to standard
    error; the sink gets nothing and the threshold is kept, so that a
    later call past the gate, with memory, hands its entry to the sink
    as ever. *)
Theorem C6_allocation_failure_is_local (file : option bytes) (line : Z)
    (function : option bytes) (L : Z) (driverId : option bytes) (msg : bytes)
    (e : env) (st : log_state) :
  1 <= VB_EA_DRIVER_ID_MAX_SIZE ->
  (L <= vbLogVerbose st)%Z ->
  calloc_ok e = false ->
  let failed size :=
    extend st [EvCalloc size; EvStderr (no_memory_text size);
               EvStderr [ascii_of_nat 10]] in
  VbLogPrint file line function L msg e st = Done (failed (VB_LOG_ENTRY_LEN + 1)) /\
  VbLogPrintExt file line function L driverId msg e st =
    Done (failed (VB_LOG_EXT_ENTRY_LEN VB_EA_DRIVER_ID_MAX_SIZE + 1)) /\
  forall size,
    stderr_text (trace (failed size)) =
      stderr_text (trace st) ++ no_memory_text size ++ [ascii_of_nat 10] /\
    sink_lines (trace (failed size)) = sink_lines (trace st) /\
    VbLogVerboseLevelGet (failed size) = VbLogVerboseLevelGet st /\
    forall file' line' function' L' id' msg' e',
      (L' <= vbLogVerbose st)%Z -> calloc_ok e' = true ->
      VbLogPrint file' line' function' L' msg' e' (failed size) =
      Done (extend (failed size)
              [EvCalloc (VB_LOG_ENTRY_LEN + 1);
               EvSyslog (plain_entry VB_LOG_LAST VbVerboseLevelToStr
                           file' line' function' L' msg' e')]) /\
      VbLogPrintExt file' line' function' L' (Some id') msg' e' (failed size) =
      Done (extend (failed size)
              [EvCalloc (VB_LOG_EXT_ENTRY_LEN VB_EA_DRIVER_ID_MAX_SIZE + 1);
               EvSyslog (ext_entry VB_LOG_LAST VbVerboseLevelToStr
                           VB_EA_DRIVER_ID_MAX_SIZE
                           file' line' function' L' id' msg' e')]).
Proof.
  intros HN HL Hc failed.
  split; [now apply VbLogPrint_no_memory|].
  split; [now apply VbLogPrintExt_no_memory|].
  intros size. unfold failed.
  split; [unfold extend; simpl trace; rewrite stderr_text_app;
          cbn [stderr_text]; now rewrite !app_nil_r|].
  split; [unfold extend; simpl trace; rewrite sink_lines_app; simpl;
          now rewrite app_nil_r|].
  split; [reflexivity|].
  intros file' line' function' L' id' msg' e' HL' Hc'. split.
  - now apply VbLogPrint_line.
  - now apply VbLogPrintExt_line.
Qed.

(** C10.  [VbLogInit] returns 0 whatever its arguments; it stores
    [verboseLevel] as the threshold and does nothing else, the other
    arguments being ignored.  No run of plain calls, extended calls and
    queries after it changes the threshold: where the run returns,
    [VbLogVerboseLevelGet] gives [verboseLevel], and it does return when
    every extended call hands over a driver identifier. *)
Theorem C10_threshold_is_what_init_stored (queueName : option bytes) (verboseLevel : Z)
    (outputFolder : option bytes) (persLogNumLines persLogVerbose : Z) (circular : bool)
    (st : log_state) :
  let r := VbLogInit queueName verboseLevel outputFolder persLogNumLines
             persLogVerbose circular st in
  fst r = 0%Z /\
  VbLogVerboseLevelGet (snd r) = verboseLevel /\
  trace (snd r) = trace st /\
  (forall queueName' outputFolder' persLogNumLines' persLogVerbose' circular',
      VbLogInit queueName' verboseLevel outputFolder' persLogNumLines'
        persLogVerbose' circular' st = r) /\
  (forall calls st',
      run_calls VB_LOG_LAST VbVerboseLevelToStr VB_EA_DRIVER_ID_MAX_SIZE calls (snd r)
      = Done st' ->
      VbLogVerboseLevelGet st' = verboseLevel) /\
  (1 <= VB_EA_DRIVER_ID_MAX_SIZE ->
   forall calls, Forall has_driver_id calls ->
     exists st',
       run_calls VB_LOG_LAST VbVerboseLevelToStr VB_EA_DRIVER_ID_MAX_SIZE calls (snd r)
       = Done st' /\
       VbLogVerboseLevelGet st' = verboseLevel).
Proof.
  intros r. subst r. simpl fst. simpl snd.
  split; [reflexivity|]. split; [reflexivity|]. split; [reflexivity|].
  split; [reflexivity|]. split.
  - intros calls st' H. apply run_calls_threshold in H. exact H.
  - intros HN calls Hcalls.
    destruct (run_calls_total VB_LOG_LAST VbVerboseLevelToStr VB_EA_DRIVER_ID_MAX_SIZE
                calls {| vbLogVerbose := verboseLevel; trace := trace st |} HN Hcalls)
      as (new & Hrun).
    eexists. split; [exact Hrun | reflexivity].
Qed.

(** C1, amended.  A plain call, or an extended call with a driver
    identifier that is not NULL, hands a line to the sink if and only if
    its level is at most the threshold and the buffer is allocated; with
    a level above the threshold it returns at once, the state as it was:
    no allocation, no sink call. *)
Theorem C1_sink_iff_level_and_memory (file : option bytes) (line : Z)
    (function : option bytes) (L : Z) (id msg : bytes) (e : env) (st : log_state) :
  1 <= VB_EA_DRIVER_ID_MAX_SIZE ->
  let plain := VbLogPrint file line function L msg e st in
  let extended := VbLogPrintExt file line function L (Some id) msg e st in
  (lines_emitted st plain <> [] <-> (L <= vbLogVerbose st)%Z /\ calloc_ok e = true) /\
  (lines_emitted st extended <> [] <->
     (L <= vbLogVerbose st)%Z /\ calloc_ok e = true) /\
  (exists new1 new2, plain = Done (extend st new1) /\ extended = Done (extend st new2)) /\
  ((vbLogVerbose st < L)%Z -> plain = Done st /\ extended = Done st).
Proof.
  intros HN plain extended. subst plain extended.
  destruct (Z.le_gt_cases L (vbLogVerbose st)) as [HL|HL].
  - destruct (calloc_ok e) eqn:Hc.
    + rewrite VbLogPrint_line, VbLogPrintExt_line by assumption.
      rewrite !lines_emitted_extend. simpl sink_lines.
      split; [split; [auto | discriminate]|].
      split; [split; [auto | discriminate]|].
      split; [eauto | lia].
    + rewrite VbLogPrint_no_memory,
        (VbLogPrintExt_no_memory VB_LOG_LAST VbVerboseLevelToStr) by assumption.
      rewrite !lines_emitted_extend. simpl sink_lines.
      split; [split; [congruence | intros [_ H]; discriminate]|].
      split; [split; [congruence | intros [_ H]; discriminate]|].
      split; [eauto | lia].
  - rewrite VbLogPrint_filtered, VbLogPrintExt_filtered by lia.
    pose proof (lines_emitted_extend st []) as E. rewrite extend_nil in E.
    rewrite E. simpl sink_lines.
    split; [split; [congruence | lia]|].
    split; [split; [congruence | lia]|].
    split; [|auto].
    exists [], []. now rewrite extend_nil.
Qed.

(** C2, amended.  A plain call, or an extended call with a driver
    identifier that is not NULL, that is past the gate and has its buffer
    makes exactly one sink call.  The line it hands over is never longer
    than the total length of its variant; it is not padded to it.  When
    the header is built, a plain line is the header, of exactly
    [VB_LOG_MAX_HDR_LEN] characters, and the message cut to at most
    [VB_LOG_MAX_LINE_LEN - 1] characters.  An extended call with a NULL
    driver identifier that is past the gate and has its buffer makes no
    sink call: [strncpy] reads the NULL pointer. *)
Theorem C2_one_line_within_the_total (file : option bytes) (line : Z)
    (function : option bytes) (L : Z) (id msg : bytes) (e : env) (st : log_state) :
  1 <= VB_EA_DRIVER_ID_MAX_SIZE ->
  (L <= vbLogVerbose st)%Z ->
  calloc_ok e = true ->
  let plain := plain_entry VB_LOG_LAST VbVerboseLevelToStr file line function L msg e in
  let extended := ext_entry VB_LOG_LAST VbVerboseLevelToStr VB_EA_DRIVER_ID_MAX_SIZE
                    file line function L id msg e in
  VbLogPrint file line function L msg e st =
    Done (extend st [EvCalloc (VB_LOG_ENTRY_LEN + 1); EvSyslog plain]) /\
  VbLogPrintExt file line function L (Some id) msg e st =
    Done (extend st [EvCalloc (VB_LOG_EXT_ENTRY_LEN VB_EA_DRIVER_ID_MAX_SIZE + 1);
                     EvSyslog extended]) /\
  length plain <= VB_LOG_ENTRY_LEN /\
  length extended <= VB_LOG_EXT_ENTRY_LEN VB_EA_DRIVER_ID_MAX_SIZE /\
  (forall f fn tmu,
      file = Some f -> function = Some fn -> localtime e = Some tmu ->
      (L < VB_LOG_LAST)%Z ->
      exists hdr,
        plain = hdr ++ c_str (take (VB_LOG_MAX_LINE_LEN - 1) msg) /\
        length hdr = VB_LOG_MAX_HDR_LEN /\
        length plain =
          VB_LOG_MAX_HDR_LEN + length (c_str (take (VB_LOG_MAX_LINE_LEN - 1) msg))) /\
  VbLogPrintExt file line function L None msg e st = Fault /\
  lines_emitted st (VbLogPrintExt file line function L None msg e st) = [].
Proof.
  intros HN HL Hc plain extended.
  split; [now apply VbLogPrint_line|].
  split; [now apply VbLogPrintExt_line|].
  split; [etransitivity; [apply plain_entry_length | sizes]|].
  split; [etransitivity; [apply ext_entry_length | sizes]|].
  rewrite (VbLogPrintExt_null_driver _ _ _ _ _ _ _ _ _ _ HL Hc).
  split; [|split; reflexivity].
  intros f fn tmu -> -> Ht Hm. subst plain. unfold plain_entry. rewrite Ht.
  apply Z.ltb_lt in Hm. rewrite Hm.
  eexists. split; [reflexivity|]. split; [apply header_text_length|].
  rewrite length_app, header_text_length. reflexivity.
Qed.

(** C4, amended.  An extended call that is past the gate, has its buffer
    and builds its header, cuts the driver identifier to its first
    [VB_EA_DRIVER_ID_MAX_SIZE - 1] characters, formats them with
    ["[%-20s]"], and puts the first [VB_EA_DRIVER_ID_MAX_SIZE + 1]
    characters of that after the base header; the message follows when
    those characters reach the place it is written at.  When
    [VB_EA_DRIVER_ID_MAX_SIZE] is 21 this is the bracketed field of 20
    characters, left justified, padded or cut, between header and
    message: of an identifier of 64 characters it holds the first 20. *)
Theorem C4_driver_field (file : bytes) (line : Z) (function : bytes) (L : Z)
    (id msg : bytes) (e : env) (tmu : tm) (st : log_state) :
  1 <= VB_EA_DRIVER_ID_MAX_SIZE ->
  (L <= vbLogVerbose st)%Z ->
  calloc_ok e = true ->
  (L < VB_LOG_LAST)%Z ->
  localtime e = Some tmu ->
  let hdr := header_text VbVerboseLevelToStr L file line function tmu (tv_usec e) in
  let cut := take (VB_EA_DRIVER_ID_MAX_SIZE - 1) (c_str id) in
  let field := take (VB_EA_DRIVER_ID_MAX_SIZE + 1)
                 (lit "[" ++ fmt_s_left 20 cut ++ lit "]") in
  (exists k, driver_id_copy VB_EA_DRIVER_ID_MAX_SIZE e (Some id) =
             Done (cut ++ replicate (S k) NUL)) /\
  VbLogPrintExt (Some file) line (Some function) L (Some id) msg e st =
    Done (extend st
            [EvCalloc (VB_LOG_EXT_ENTRY_LEN VB_EA_DRIVER_ID_MAX_SIZE + 1);
             EvSyslog (hdr ++ field ++
                       (if VB_EA_DRIVER_ID_MAX_SIZE + 1 <=? length field
                        then body_text msg else []))]) /\
  (VB_EA_DRIVER_ID_MAX_SIZE = 21 ->
   VbLogPrintExt (Some file) line (Some function) L (Some id) msg e st =
     Done (extend st
             [EvCalloc (VB_LOG_EXT_ENTRY_LEN VB_EA_DRIVER_ID_MAX_SIZE + 1);
              EvSyslog (hdr ++ lit "[" ++ fmt_s_left 20 (take 20 (c_str id)) ++
                        lit "]" ++ body_text msg)]) /\
   length (fmt_s_left 20 (take 20 (c_str id))) = 20 /\
   (20 <= length (c_str id) ->
    fmt_s_left 20 (take 20 (c_str id)) = take 20 (c_str id))).
Proof.
  intros HN HL Hc Hm Ht hdr cut field.
  assert (Hcut : no_nul cut) by apply no_nul_take, c_str_no_nul.
  assert (Hfield : field = driver_field VB_EA_DRIVER_ID_MAX_SIZE id).
  { unfold field, driver_field, VB_LOG_MAX_DRIVER_HDR_LEN, VB_LOG_DRIVER_ID_FMT.
    unfold fmt_s_left. rewrite (c_str_id cut) by assumption.
    fold cut. rewrite (c_str_id cut) by assumption.
    now replace (VB_EA_DRIVER_ID_MAX_SIZE + 2 - 1)
      with (VB_EA_DRIVER_ID_MAX_SIZE + 1) by lia. }
  assert (Hrun : VbLogPrintExt (Some file) line (Some function) L (Some id) msg e st =
    Done (extend st
            [EvCalloc (VB_LOG_EXT_ENTRY_LEN VB_EA_DRIVER_ID_MAX_SIZE + 1);
             EvSyslog (hdr ++ field ++
                       (if VB_EA_DRIVER_ID_MAX_SIZE + 1 <=? length field
                        then body_text msg else []))])).
  { rewrite (VbLogPrintExt_built _ _ _ _ _ _ _ _ _ _ _ tmu) by assumption.
    unfold ext_line. rewrite Hfield. fold hdr.
    now replace (VB_LOG_MAX_DRIVER_HDR_LEN VB_EA_DRIVER_ID_MAX_SIZE - 1)
      with (VB_EA_DRIVER_ID_MAX_SIZE + 1) by (unfold VB_LOG_MAX_DRIVER_HDR_LEN; lia). }
  split; [|split; [exact Hrun|]].
  - rewrite driver_id_copy_cut by assumption. fold cut.
    exists (VB_EA_DRIVER_ID_MAX_SIZE - length cut - 1). do 3 f_equal.
    unfold cut. rewrite length_take. lia.
  - intros H21. rewrite Hrun.
    assert (Hl : length (fmt_s_left 20 (take 20 (c_str id))) = 20).
    { rewrite fmt_s_left_length, c_str_id by apply no_nul_take, c_str_no_nul.
      rewrite length_take. lia. }
    split; [|split; [exact Hl|]].
    + assert (Hf : field = lit "[" ++ fmt_s_left 20 (take 20 (c_str id)) ++ lit "]").
      { unfold field, cut. rewrite H21. simpl Nat.sub.
        apply take_ge. rewrite !length_app, Hl. simpl length. lia. }
      rewrite Hf, H21. rewrite !length_app, Hl. simpl length. simpl Nat.leb.
      now rewrite <- !app_assoc.
    + intros Hid. unfold fmt_s_left.
      rewrite c_str_id by apply no_nul_take, c_str_no_nul.
      rewrite length_take. replace (20 - 20 `min` length (c_str id)) with 0 by lia.
      simpl. apply app_nil_r.
Qed.

(** C5, amended.  With a NULL file name or a NULL function name
    [VbLogHdrBuild] writes nothing at all, leaving the buffer as it is:
    the whole header is skipped, not one field of it.  A plain call, and
    an extended call with a driver identifier that is not NULL, do not
    fault: they go on to format the message and to make their one sink
    call.  An extended call with a NULL driver identifier faults when it
    is past the gate and has its buffer, with these names as with any:
    the copy of the identifier is not guarded as the header is. *)
Theorem C5_null_names_skip_the_header (file : option bytes) (line : Z)
    (function : option bytes) (L : Z) (id msg : bytes) (e : env) (st : log_state) :
  1 <= VB_EA_DRIVER_ID_MAX_SIZE ->
  file = None \/ function = None ->
  (forall dst, HdrBuild dst L file line function e = Done dst) /\
  ((L <= vbLogVerbose st)%Z -> calloc_ok e = true ->
   exists text1 text2,
     VbLogPrint file line function L msg e st =
       Done (extend st [EvCalloc (VB_LOG_ENTRY_LEN + 1); EvSyslog text1]) /\
     VbLogPrintExt file line function L (Some id) msg e st =
       Done (extend st [EvCalloc (VB_LOG_EXT_ENTRY_LEN VB_EA_DRIVER_ID_MAX_SIZE + 1);
                        EvSyslog text2]) /\
     VbLogPrintExt file line function L None msg e st = Fault).
Proof.
  intros HN Hnull. split.
  - intros dst. apply VbLogHdrBuild_skipped. tauto.
  - intros HL Hc. do 2 eexists. split; [|split].
    + now apply VbLogPrint_line.
    + now apply VbLogPrintExt_line.
    + now apply VbLogPrintExt_null_driver.
Qed.

(** C9, amended.  With a threshold that is a level, below the sentinel,
    a call whose level is at or beyond the sentinel is filtered out: it
    returns with no allocation, no line for the sink and no error. *)
Theorem C9_out_of_range_level_filtered (file : option bytes) (line : Z)
    (function : option bytes) (L : Z) (driverId : option bytes) (msg : bytes)
    (e : env) (st : log_state) :
  (vbLogVerbose st < VB_LOG_LAST)%Z ->
  (VB_LOG_LAST <= L)%Z ->
  VbLogPrint file line function L msg e st = Done st /\
  VbLogPrintExt file line function L driverId msg e st = Done st.
Proof.
  intros HT HL. split.
  - apply VbLogPrint_filtered. lia.
  - apply VbLogPrintExt_filtered. lia.
Qed.

End Claims.

(** * The statements on the example calls *)

(** The names of 49, 45 and 64 characters are cut to their first 30, 40
    and, for a driver identifier size of 21, 20 characters, and the line
    of the extended call shows the 20 between brackets. *)
Lemma C3_long_names_are_cut_witness :
  file_name_copy example_env (Some example_long_file) =
    Done (lit "a_very_long_file_name_that_exc" ++ [NUL]) /\
  func_name_copy example_env (Some example_long_function) =
    Done (lit "VbEngineProcessAlignmentClusterStopConfi" ++ [NUL]) /\
  driver_id_copy 21 example_env (Some example_id64) =
    Done (lit "01234567890123456789" ++ [NUL]) /\
  VbLogPrintExt_helper example_LAST example_names 21 (Some example_long_file) 42
    (Some example_long_function) 0 (Some example_id64) (lit "failed: 7")
    example_env example_state =
  Done (extend example_state
          [EvCalloc (VB_LOG_EXT_ENTRY_LEN 21 + 1);
           EvSyslog (header_text example_names 0 example_long_file 42
                       example_long_function example_clock 123456 ++
                     lit "[" ++ lit "01234567890123456789" ++ lit "]" ++
                     lit "failed: 7")]).
Proof.
  destruct (C3_long_names_are_cut example_LAST example_names 21 example_env
              example_long_file
              example_long_function example_id64 ltac:(lia))
    as (Hfile & Hfunc & Hid & _ & _ & Hline & _).
  split; [|split; [|split]].
  - apply Hfile. vm_compute. lia.
  - apply Hfunc. vm_compute. lia.
  - apply Hid. vm_compute. lia.
  - apply (Hline 42%Z 0%Z (lit "failed: 7") example_clock example_state).
    + vm_compute. lia.
    + simpl. lia.
    + reflexivity.
    + unfold example_LAST. lia.
    + reflexivity.
Defined.

Lemma C7_header_has_its_static_length_witness :
  exists hdr,
    VbLogHdrBuild example_LAST example_names (Some (replicate 307 NUL)) 0
      (Some (lit "net.c")) 42 (Some (lit "doSend")) example_env =
    Done (Some (hdr ++ NUL :: drop (VB_LOG_MAX_HDR_LEN + 1) (replicate 307 NUL))) /\
    length hdr = VB_LOG_MAX_HDR_LEN /\
    exists text,
      VbLogPrint_helper example_LAST example_names (Some (lit "net.c")) 42
        (Some (lit "doSend")) 0 (lit "failed: 7") example_env example_state =
      Done (extend example_state [EvCalloc (VB_LOG_ENTRY_LEN + 1); EvSyslog text]) /\
      drop VB_LOG_MAX_HDR_LEN text = body_text (lit "failed: 7").
Proof.
  destruct (C7_header_has_its_static_length example_LAST example_names
              (replicate 307 NUL) 0 (lit "net.c") 42 (lit "doSend") example_env
              example_clock (lit "failed: 7") example_state)
    as (hdr & Hbuild & _ & Hlen & _ & Hline).
  - unfold example_LAST. lia.
  - reflexivity.
  - vm_compute. lia.
  - exists hdr. split; [exact Hbuild|]. split; [exact Hlen|].
    destruct Hline as (text & Hrun & _ & Hbody).
    + simpl. lia.
    + reflexivity.
    + exists text. split; [exact Hrun | exact Hbody].
Defined.

(** A clock that reports 1 000 999 microseconds shows [999ms]. *)
Lemma C8_milliseconds_clamped_witness :
  msec_of 1000999 = 999%Z /\
  exists front,
    VbLogHdrBuild example_LAST example_names (Some (replicate 307 NUL)) 0
      (Some (lit "net.c")) 42 (Some (lit "doSend"))
      {| calloc_ok := true; localtime := Some example_clock; tv_usec := 1000999;
         stack := [] |} =
    Done (Some ((front ++ lit "999" ++ lit "ms]") ++
                NUL :: drop (VB_LOG_MAX_HDR_LEN + 1) (replicate 307 NUL))) /\
    length front = VB_LOG_MAX_HDR_LEN - 6.
Proof.
  destruct (C8_milliseconds_clamped example_LAST example_names (replicate 307 NUL) 0
              (lit "net.c") 42 (lit "doSend")
              {| calloc_ok := true; localtime := Some example_clock;
                 tv_usec := 1000999; stack := [] |} example_clock)
    as (Hmsec & _ & _ & _ & Hhdr).
  - simpl. lia.
  - unfold example_LAST. lia.
  - reflexivity.
  - unfold tm_in_range. simpl. lia.
  - vm_compute. lia.
  - split; [exact Hmsec | exact Hhdr].
Defined.

Lemma C6_allocation_failure_is_local_witness :
  VbLogPrint_helper example_LAST example_names (Some (lit "net.c")) 42
    (Some (lit "doSend")) 0 (lit "failed: 7") example_env_no_memory example_state =
  Done (extend example_state
          [EvCalloc 307; EvStderr (lit "No memory to allocate log_line (307 bytes)");
           EvStderr [ascii_of_nat 10]]) /\
  VbLogPrint_helper example_LAST example_names (Some (lit "net.c")) 42
    (Some (lit "doSend")) 0 (lit "failed: 7") example_env
    (extend example_state
       [EvCalloc 307; EvStderr (lit "No memory to allocate log_line (307 bytes)");
        EvStderr [ascii_of_nat 10]]) =
  Done (extend example_state
          [EvCalloc 307; EvStderr (lit "No memory to allocate log_line (307 bytes)");
           EvStderr [ascii_of_nat 10];
           EvCalloc 307; EvSyslog (example_header ++ lit "failed: 7")]).
Proof.
  destruct (C6_allocation_failure_is_local example_LAST example_names 21
              (Some (lit "net.c")) 42 (Some (lit "doSend")) 0 (Some example_id64)
              (lit "failed: 7") example_env_no_memory example_state)
    as (Hfail & _ & Hnext).
  - lia.
  - simpl. lia.
  - reflexivity.
  - split; [exact Hfail|].
    destruct (Hnext 307) as (_ & _ & _ & Hcall).
    destruct (Hcall (Some (lit "net.c")) 42%Z (Some (lit "doSend")) 0%Z example_id64
                (lit "failed: 7") example_env) as (Hplain & _).
    + simpl. lia.
    + reflexivity.
    + exact Hplain.
Defined.

Lemma C10_threshold_is_what_init_stored_witness :
  exists st',
    run_calls example_LAST example_names 21
      [Call_VbLogPrint (Some (lit "net.c")) 42 (Some (lit "doSend")) 0
         (lit "failed: 7") example_env;
       Call_VbLogVerboseLevelGet;
       Call_VbLogPrintExt (Some (lit "net.c")) 42 (Some (lit "doSend")) 1
         (Some example_id64) (lit "failed: 7") example_env_no_memory]
      (snd (VbLogInit (Some (lit "queue")) 2 None 100 3 true example_state)) = Done st' /\
    VbLogVerboseLevelGet st' = 2%Z.
Proof.
  destruct (C10_threshold_is_what_init_stored example_LAST example_names 21
              (Some (lit "queue")) 2 None 100 3 true example_state)
    as (_ & _ & _ & _ & _ & Hruns).
  apply Hruns; [lia|]. repeat constructor.
Defined.

Lemma C1_sink_iff_level_and_memory_witness :
  lines_emitted example_state
    (VbLogPrint_helper example_LAST example_names (Some (lit "net.c")) 42
       (Some (lit "doSend")) 2 (lit "failed: 7") example_env example_state) = [] /\
  lines_emitted example_state
    (VbLogPrint_helper example_LAST example_names (Some (lit "net.c")) 42
       (Some (lit "doSend")) 1 (lit "failed: 7") example_env example_state) <> [].
Proof.
  split.
  - destruct (C1_sink_iff_level_and_memory example_LAST example_names 21
                (Some (lit "net.c")) 42 (Some (lit "doSend")) 2 example_id64
                (lit "failed: 7") example_env example_state ltac:(lia))
      as (_ & _ & _ & Hfiltered).
    destruct Hfiltered as (-> & _); [simpl; lia | reflexivity].
  - destruct (C1_sink_iff_level_and_memory example_LAST example_names 21
                (Some (lit "net.c")) 42 (Some (lit "doSend")) 1 example_id64
                (lit "failed: 7") example_env example_state ltac:(lia))
      as (Hplain & _).
    apply Hplain. split; [simpl; lia | reflexivity].
Defined.

Lemma C2_one_line_within_the_total_witness :
  VbLogPrint_helper example_LAST example_names (Some (lit "net.c")) 42
    (Some (lit "doSend")) 0 (lit "failed: 7") example_env example_state =
  Done (extend example_state
          [EvCalloc (VB_LOG_ENTRY_LEN + 1);
           EvSyslog (plain_entry example_LAST example_names (Some (lit "net.c")) 42
                       (Some (lit "doSend")) 0 (lit "failed: 7") example_env)]) /\
  length (plain_entry example_LAST example_names (Some (lit "net.c")) 42
            (Some (lit "doSend")) 0 (lit "failed: 7") example_env) <= VB_LOG_ENTRY_LEN.
Proof.
  destruct (C2_one_line_within_the_total example_LAST example_names 21
              (Some (lit "net.c")) 42 (Some (lit "doSend")) 0 example_id64
              (lit "failed: 7") example_env example_state)
    as (Hrun & _ & Hlen & _).
  - lia.
  - simpl. lia.
  - reflexivity.
  - split; [exact Hrun | exact Hlen].
Defined.

(** With a driver identifier size of 21, the identifier of 64 characters
    gives the field of its first 20 characters between brackets. *)
Lemma C4_driver_field_witness :
  VbLogPrintExt_helper example_LAST example_names 21 (Some (lit "net.c")) 42
    (Some (lit "doSend")) 0 (Some example_id64) (lit "failed: 7")
    example_env example_state =
  Done (extend example_state
          [EvCalloc (VB_LOG_EXT_ENTRY_LEN 21 + 1);
           EvSyslog (example_header ++ lit "[01234567890123456789]" ++
                     lit "failed: 7")]).
Proof.
  destruct (C4_driver_field example_LAST example_names 21 (lit "net.c") 42
              (lit "doSend") 0 example_id64 (lit "failed: 7") example_env
              example_clock example_state)
    as (_ & _ & H21).
  - lia.
  - simpl. lia.
  - reflexivity.
  - unfold example_LAST. lia.
  - reflexivity.
  - destruct (H21 eq_refl) as (Hrun & _). exact Hrun.
Defined.

Lemma C5_null_names_skip_the_header_witness :
  VbLogHdrBuild example_LAST example_names (Some (replicate 307 NUL)) 0 None 42
    (Some (lit "doSend")) example_env = Done (Some (replicate 307 NUL)) /\
  exists text1 text2,
    VbLogPrint_helper example_LAST example_names None 42 (Some (lit "doSend")) 0
      (lit "failed: 7") example_env example_state =
    Done (extend example_state [EvCalloc (VB_LOG_ENTRY_LEN + 1); EvSyslog text1]) /\
    VbLogPrintExt_helper example_LAST example_names 21 None 42 (Some (lit "doSend")) 0
      (Some example_id64) (lit "failed: 7") example_env example_state =
    Done (extend example_state [EvCalloc (VB_LOG_EXT_ENTRY_LEN 21 + 1); EvSyslog text2]).
Proof.
  destruct (C5_null_names_skip_the_header example_LAST example_names 21 None 42
              (Some (lit "doSend")) 0 example_id64 (lit "failed: 7") example_env
              example_state)
    as (Hhdr & Hcalls).
  - lia.
  - left. reflexivity.
  - split; [apply Hhdr|].
    destruct Hcalls as (text1 & text2 & H1 & H2 & _); [simpl; lia | reflexivity |].
    exists text1, text2. split; [exact H1 | exact H2].
Defined.

Lemma C9_out_of_range_level_filtered_witness :
  VbLogPrint_helper example_LAST example_names (Some (lit "net.c")) 42
    (Some (lit "doSend")) 5 (lit "failed: 7") example_env example_state =
  Done example_state /\
  VbLogPrintExt_helper example_LAST example_names 21 (Some (lit "net.c")) 42
    (Some (lit "doSend")) 5 (Some example_id64) (lit "failed: 7") example_env
    example_state = Done example_state.
Proof.
  apply (C9_out_of_range_level_filtered example_LAST example_names 21).
  - simpl. unfold example_LAST. lia.
  - unfold example_LAST. lia.
Defined.

(** * Calls at which statements of the specification fail as written *)

(** C3 as written: the file name of 49 characters exceeds the width of
    its field, 30, and the field holds its first 30 characters, not its
    first 29 and a terminator; so does the line of the call. *)
Lemma C3_counterexample :
  VB_LOG_MAX_FILE_LEN < length (c_str example_long_file) /\
  (~ exists rest,
       file_name_copy example_env (Some example_long_file) =
       Done (take (VB_LOG_MAX_FILE_LEN - 1) (c_str example_long_file) ++ NUL :: rest)) /\
  file_name_copy example_env (Some example_long_file) =
    Done (take VB_LOG_MAX_FILE_LEN (c_str example_long_file) ++ [NUL]) /\
  lines_emitted example_state
    (VbLogPrint_helper example_LAST example_names (Some example_long_file) 42
       (Some (lit "doSend")) 0 (lit "failed: 7") example_env example_state) =
  [lit "[  ERROR][a_very_long_file_name_that_exc][00042][                                  doSend][09:05:59 123ms]failed: 7"].
Proof.
  split; [vm_compute; lia|]. split; [|split; vm_compute; reflexivity].
  intros (rest & H). vm_compute in H. discriminate H.
Qed.

(** C1 as written: the level is at most the threshold, yet with no memory
    for the buffer no line reaches the sink. *)
Lemma C1_counterexample :
  ~ (lines_emitted example_state
       (VbLogPrint_helper example_LAST example_names (Some (lit "net.c")) 42
          (Some (lit "doSend")) 0 (lit "failed: 7") example_env_no_memory
          example_state) <> []
     <-> (0 <= vbLogVerbose example_state)%Z).
Proof.
  intros [_ H]. apply H; [simpl; lia|]. vm_compute. reflexivity.
Qed.

(** C2 as written: the line of the example call has 115 characters, the
    106 of the header and the 9 of the message, not the 306 of
    [VB_LOG_ENTRY_LEN]. *)
Lemma C2_counterexample :
  lines_emitted example_state
    (VbLogPrint_helper example_LAST example_names (Some (lit "net.c")) 42
       (Some (lit "doSend")) 0 (lit "failed: 7") example_env example_state) =
  [example_header ++ lit "failed: 7"] /\
  length (example_header ++ lit "failed: 7") = 115 /\
  VB_LOG_ENTRY_LEN = 306.
Proof. vm_compute. repeat split. Qed.

(** C5 as written: with a NULL file name the sink gets the empty line,
    without any field of the header and without the message. *)
Lemma C5_counterexample :
  ~ exists text front,
      lines_emitted example_state
        (VbLogPrint_helper example_LAST example_names None 42 (Some (lit "doSend")) 0
           (lit "failed: 7") example_env example_state) = [text] /\
      text = front ++ lit "failed: 7".
Proof.
  intros (text & front & Hrun & Htext). vm_compute in Hrun.
  injection Hrun as <-. destruct front; discriminate.
Qed.

(** C9 as written: with the threshold itself at the sentinel, a call at
    the sentinel passes the gate and the sink gets a line. *)
Lemma C9_counterexample :
  (example_LAST <= 5)%Z /\
  lines_emitted (example_state_at 5)
    (VbLogPrint_helper example_LAST example_names (Some (lit "net.c")) 42
       (Some (lit "doSend")) 5 (lit "failed: 7") example_env (example_state_at 5)) =
  [[]].
Proof. split; [unfold example_LAST; lia | vm_compute; reflexivity]. Qed.

(** C4 as written asks, of the identifier of 64 characters, that 19
    characters are copied and that they stand, padded to 20, between
    brackets.  No size of the driver identifier gives both: 19 characters
    are copied only when the size is 20, and then the closing bracket is
    cut off; the brackets enclose 20 characters only when the size is 21,
    and then 20 characters are copied. *)
Lemma C4_counterexample :
  (~ exists N,
       1 <= N /\
       driver_id_copy N example_env (Some example_id64) =
         Done (lit "0123456789012345678" ++ [NUL]) /\
       lines_emitted example_state
         (VbLogPrintExt_helper example_LAST example_names N (Some (lit "net.c")) 42
            (Some (lit "doSend")) 0 (Some example_id64) (lit "failed: 7")
            example_env example_state) =
       [example_header ++ lit "[0123456789012345678 ]" ++ lit "failed: 7"]) /\
  lines_emitted example_state
    (VbLogPrintExt_helper example_LAST example_names 20 (Some (lit "net.c")) 42
       (Some (lit "doSend")) 0 (Some example_id64) (lit "failed: 7")
       example_env example_state) =
  [example_header ++ lit "[0123456789012345678 " ++ lit "failed: 7"] /\
  driver_id_copy 21 example_env (Some example_id64) =
  Done (lit "01234567890123456789" ++ [NUL]).
Proof.
  split; [|split; vm_compute; reflexivity].
  intros (N & HN & Hcopy & Hline).
  assert (HN20 : N = 20).
  { rewrite driver_id_copy_cut in Hcopy by assumption.
    apply Done_inj in Hcopy. apply (f_equal length) in Hcopy.
    rewrite length_app, length_replicate, length_take in Hcopy.
    simpl length in Hcopy. lia. }
  subst N. vm_compute in Hline. discriminate.
Qed.

(** * Further properties of the code *)

(** ** The header, field by field *)

(** A check of [utoa] on [n] successive values from [x] on. *)
Lemma utoa_checked (w n : nat) (x : Z) :
  (fix check (n : nat) (x : Z) : bool :=
     match n with
     | 0 => true
     | S n' => (length (utoa x) <=? w) && check n' (x + 1)%Z
     end) n x = true ->
  forall y, (x <= y < x + Z.of_nat n)%Z -> length (utoa y) <= w.
Proof.
  revert x. induction n as [|n IH]; intros x H y Hy; [lia|].
  apply andb_prop in H. destruct H as [H0 H1].
  destruct (Z.eq_dec y x) as [->|Hne].
  - now apply Nat.leb_le.
  - apply (IH (x + 1)%Z H1). lia.
Qed.

Lemma utoa_width_5 (m : Z) : (0 <= m < 65536)%Z -> length (utoa m) <= 5.
Proof.
  intros Hm. apply (utoa_checked 5 (Z.to_nat 65536) 0); [vm_compute; reflexivity|].
  rewrite Z2Nat.id; lia.
Qed.

Lemma fmt_0u_5_exact (m : Z) : (0 <= m < 65536)%Z -> length (fmt_0u 5 m) = 5.
Proof.
  intros Hm. unfold fmt_0u. cbv zeta. rewrite length_app, length_replicate.
  pose proof (utoa_width_5 m Hm). lia.
Qed.

(** Under its guard [VbLogHdrBuild] comes down to its last [snprintf]. *)
Lemma VbLogHdrBuild_last_write LAST names (d : bytes) (mode : Z) (f : bytes) (line : Z)
    (fn : bytes) (e : env) (tmu : tm) :
  (mode < LAST)%Z ->
  localtime e = Some tmu ->
  VbLogHdrBuild LAST names (Some d) mode (Some f) line (Some fn) e =
  snprintf_at (Some d) 0 (VB_LOG_MAX_HDR_LEN + 1)
    (VB_LOG_FMT
       (take VB_LOG_MAX_MODE_LEN (fmt_s 7 (names mode)))
       (take VB_LOG_MAX_FILE_LEN (c_str f))
       (take VB_LOG_MAX_LINENUM_LEN (fmt_0u 5 (INT16U_of line)))
       (take VB_LOG_MAX_FUNC_LEN (c_str fn))
       (tm_hour tmu) (tm_min tmu) (tm_sec tmu) (msec_of (tv_usec e))).
Proof.
  intros Hmode Htm. unfold VbLogHdrBuild.
  apply Z.ltb_lt in Hmode. rewrite Hmode, Htm.
  rewrite snprintf_terminate_k
    by (rewrite ?local_array_length, ?fmt_s_length; unfold VB_LOG_MAX_MODE_LEN; lia).
  unfold file_name_copy. rewrite obind_assoc.
  rewrite strncpy_terminate_k by (now rewrite local_array_length).
  rewrite snprintf_terminate_k
    by (rewrite ?local_array_length; try reflexivity; apply fmt_0u_length).
  unfold func_name_copy. rewrite obind_assoc.
  rewrite strncpy_terminate_k by (now rewrite local_array_length).
  rewrite VB_LOG_FMT_c_str.
  rewrite !strncpy_terminate_c_str.
  rewrite !(c_str_stop _ []).
  rewrite (c_str_id (take VB_LOG_MAX_MODE_LEN _)) by apply no_nul_take, fmt_s_no_nul.
  rewrite (c_str_id (take VB_LOG_MAX_LINENUM_LEN _)) by apply no_nul_take, fmt_0u_no_nul.
  reflexivity.
Qed.

Lemma snprintf_at_out_of_bounds (buf : bytes) (off size : nat) (text : bytes) :
  0 < size ->
  length buf < off + length (take (size - 1) text) + 1 ->
  snprintf_at (Some buf) off size text = Fault.
Proof.
  intros Hs Hb. unfold snprintf_at, snprintf.
  destruct size as [|k]; [lia|]. simpl Nat.sub in Hb. rewrite Nat.sub_0_r in Hb.
  unfold blit.
  destruct (Nat.leb_spec (off + length (take k text ++ [NUL])) (length buf)) as [H|H];
    [|reflexivity].
  rewrite length_app in H. simpl length in H. lia.
Qed.

Lemma INT16U_of_range (z : Z) : (0 <= INT16U_of z < 65536)%Z.
Proof. unfold INT16U_of. apply Z.mod_pos_bound. lia. Qed.

(** The text of a header whose clock fields have two digits, written out
    with the list operations only. *)
Lemma header_text_layout (names : Z -> bytes) (mode : Z) (f : bytes) (line : Z)
    (fn : bytes) (tmu : tm) (usec : Z) :
  tm_in_range tmu ->
  header_text names mode f line fn tmu usec =
  lit "[" ++
  take 7 (replicate (7 - length (c_str (names mode))) SPACE ++ c_str (names mode)) ++
  lit "][" ++ (replicate (30 - length (c_str f)) SPACE ++ take 30 (c_str f)) ++
  lit "][" ++ fmt_0u 5 (line mod 65536) ++
  lit "][" ++ (replicate (40 - length (c_str fn)) SPACE ++ take 40 (c_str fn)) ++
  lit "][" ++ fmt_0d 2 (tm_hour tmu) ++ lit ":" ++ fmt_0d 2 (tm_min tmu) ++ lit ":" ++
  fmt_0d 2 (tm_sec tmu) ++ lit " " ++ fmt_0d 3 (msec_of usec) ++ lit "ms]".
Proof.
  intros (Hh & Hm & Hs). unfold header_text, VB_LOG_FMT.
  assert (Ea : fmt_s 7 (take VB_LOG_MAX_MODE_LEN (fmt_s 7 (names mode))) =
               take 7 (replicate (7 - length (c_str (names mode))) SPACE ++
                       c_str (names mode))).
  { unfold fmt_s at 1. rewrite c_str_id by apply no_nul_take, fmt_s_no_nul.
    rewrite length_take, fmt_s_length.
    replace (7 - VB_LOG_MAX_MODE_LEN `min` (7 `max` length (c_str (names mode))))
      with 0 by (unfold VB_LOG_MAX_MODE_LEN; lia).
    reflexivity. }
  assert (Eb : forall w s, fmt_s w (take w (c_str s)) =
                           replicate (w - length (c_str s)) SPACE ++ take w (c_str s)).
  { intros w s. unfold fmt_s. rewrite c_str_id by apply no_nul_take, c_str_no_nul.
    rewrite length_take. f_equal. f_equal. lia. }
  assert (Ec : fmt_s 5 (take VB_LOG_MAX_LINENUM_LEN (fmt_0u 5 (INT16U_of line))) =
               fmt_0u 5 (line mod 65536)).
  { pose proof (fmt_0u_5_exact _ (INT16U_of_range line)) as H5.
    rewrite take_ge by (rewrite H5; reflexivity).
    unfold fmt_s. rewrite c_str_id by apply fmt_0u_no_nul.
    rewrite H5. reflexivity. }
  rewrite Ea, Ec.
  change VB_LOG_MAX_FILE_LEN with 30. change VB_LOG_MAX_FUNC_LEN with 40.
  rewrite !Eb.
  apply take_ge.
  pose proof (fmt_0d_2_exact (tm_hour tmu) ltac:(lia)) as H1.
  pose proof (fmt_0d_2_exact (tm_min tmu) ltac:(lia)) as H2.
  pose proof (fmt_0d_2_exact (tm_sec tmu) ltac:(lia)) as H3.
  pose proof (fmt_0d_3_exact _ (msec_of_range usec)) as H4.
  pose proof (fmt_0u_5_exact _ (INT16U_of_range line)) as H5.
  unfold INT16U_of in H5.
  repeat rewrite ?length_app, ?length_take, ?length_replicate.
  rewrite H1, H2, H3, H4, H5. simpl length. sizes.
Qed.

(** X1.  The header [VbLogHdrBuild] writes, for a clock with fields of two
    digits: between brackets, the level name right justified in 7
    characters (its first 7 when longer), the file name right justified
    in 30 (cut to its first 30), the line number modulo 65536 as five
    decimal digits, the function name right justified in 40 (cut to its
    first 40), and hours, minutes, seconds and milliseconds as 2, 2, 2
    and 3 digits.  Every field has its width, so each starts at a fixed
    offset. *)
Theorem X1_header_fields (VB_LOG_LAST : Z) (VbVerboseLevelToStr : Z -> bytes)
    (dst : bytes) (mode : Z) (file : bytes) (line : Z) (function : bytes)
    (e : env) (tmu : tm) :
  (mode < VB_LOG_LAST)%Z ->
  localtime e = Some tmu ->
  tm_in_range tmu ->
  VB_LOG_MAX_HDR_LEN + 1 <= length dst ->
  let name := c_str (VbVerboseLevelToStr mode) in
  let level := take 7 (replicate (7 - length name) SPACE ++ name) in
  let file_field := replicate (30 - length (c_str file)) SPACE ++ take 30 (c_str file) in
  let number := fmt_0u 5 (line mod 65536) in
  let func_field :=
    replicate (40 - length (c_str function)) SPACE ++ take 40 (c_str function) in
  let hh := fmt_0d 2 (tm_hour tmu) in
  let mm := fmt_0d 2 (tm_min tmu) in
  let ss := fmt_0d 2 (tm_sec tmu) in
  let ms := fmt_0d 3 (msec_of (tv_usec e)) in
  VbLogHdrBuild VB_LOG_LAST VbVerboseLevelToStr (Some dst) mode (Some file) line
    (Some function) e =
  Done (Some ((lit "[" ++ level ++ lit "][" ++ file_field ++ lit "][" ++ number ++
               lit "][" ++ func_field ++ lit "][" ++ hh ++ lit ":" ++ mm ++ lit ":" ++
               ss ++ lit " " ++ ms ++ lit "ms]") ++
              NUL :: drop (VB_LOG_MAX_HDR_LEN + 1) dst)) /\
  length level = 7 /\ length file_field = 30 /\ length number = 5 /\
  length func_field = 40 /\
  length hh = 2 /\ length mm = 2 /\ length ss = 2 /\ length ms = 3.
Proof.
  intros Hm Ht Hr Hd name level file_field number func_field hh mm ss ms.
  split.
  - rewrite (VbLogHdrBuild_built _ _ _ _ _ _ _ _ tmu Hm Ht Hd).
    now rewrite header_text_layout.
  - destruct Hr as (Hh & Hmin & Hs).
    unfold level, file_field, number, func_field, hh, mm, ss, ms.
    repeat rewrite ?length_app, ?length_take, ?length_replicate.
    pose proof (fmt_0u_5_exact _ (INT16U_of_range line)) as H5.
    unfold INT16U_of in H5.
    rewrite H5, !fmt_0d_2_exact, fmt_0d_3_exact by (lia || apply msec_of_range).
    repeat split; lia.
Qed.

(** X2.  [VbLogHdrBuild] needs [VB_LOG_MAX_HDR_LEN + 1] characters at
    [dst]: when its guard holds it always writes the 106 characters of
    the header and a terminator, so that with a shorter block it writes
    past the end of it, and with a block of that size or more it changes
    nothing beyond its first [VB_LOG_MAX_HDR_LEN + 1] characters. *)
Theorem X2_header_needs_room (VB_LOG_LAST : Z) (VbVerboseLevelToStr : Z -> bytes)
    (dst : bytes) (mode : Z) (file : bytes) (line : Z) (function : bytes)
    (e : env) (tmu : tm) :
  (mode < VB_LOG_LAST)%Z ->
  localtime e = Some tmu ->
  let r := VbLogHdrBuild VB_LOG_LAST VbVerboseLevelToStr (Some dst) mode (Some file)
             line (Some function) e in
  (length dst < VB_LOG_MAX_HDR_LEN + 1 -> r = Fault) /\
  (VB_LOG_MAX_HDR_LEN + 1 <= length dst ->
   exists dst',
     r = Done (Some dst') /\
     length dst' = length dst /\
     length (c_str dst') = VB_LOG_MAX_HDR_LEN /\
     drop (VB_LOG_MAX_HDR_LEN + 1) dst' = drop (VB_LOG_MAX_HDR_LEN + 1) dst).
Proof.
  intros Hm Ht r. subst r. split.
  - intros Hd. rewrite (VbLogHdrBuild_last_write _ _ _ _ _ _ _ _ tmu Hm Ht).
    apply snprintf_at_out_of_bounds; [lia|].
    change (VB_LOG_MAX_HDR_LEN + 1 - 1) with VB_LOG_MAX_HDR_LEN.
    fold (header_text VbVerboseLevelToStr mode file line function tmu (tv_usec e)).
    rewrite header_text_length. lia.
  - intros Hd. rewrite (VbLogHdrBuild_built _ _ _ _ _ _ _ _ tmu Hm Ht Hd).
    set (hdr := header_text VbVerboseLevelToStr mode file line function tmu (tv_usec e)).
    assert (Hh : length hdr = VB_LOG_MAX_HDR_LEN) by apply header_text_length.
    eexists. split; [reflexivity|]. split; [|split].
    + rewrite length_app, Hh, length_cons, length_drop. lia.
    + rewrite c_str_stop, c_str_id by apply header_text_no_nul. exact Hh.
    + rewrite drop_app_ge by lia. rewrite Hh.
      now replace (VB_LOG_MAX_HDR_LEN + 1 - VB_LOG_MAX_HDR_LEN) with 1 by lia.
Qed.

(** ** The line when no header is written *)

(** X3.  A plain call, or an extended call with a driver identifier that
    is not NULL, that is past the gate and has its buffer hands the sink
    the empty line exactly when [VbLogHdrBuild] writes no header, that is
    with a NULL file or function name, a level at or beyond the sentinel,
    or no local time: the message, written behind the header's place, is
    then behind a terminator.  An extended call with a NULL driver
    identifier hands the sink no line, empty or not, header or not: it
    faults in the copy of the identifier. *)
Theorem X3_empty_line_iff_no_header (VB_LOG_LAST : Z) (VbVerboseLevelToStr : Z -> bytes)
    (VB_EA_DRIVER_ID_MAX_SIZE : nat) (file : option bytes) (line : Z)
    (function : option bytes) (L : Z) (id msg : bytes) (e : env) (st : log_state) :
  1 <= VB_EA_DRIVER_ID_MAX_SIZE ->
  (L <= vbLogVerbose st)%Z ->
  calloc_ok e = true ->
  let no_header :=
    file = None \/ function = None \/ (VB_LOG_LAST <= L)%Z \/ localtime e = None in
  exists text1 text2,
    VbLogPrint_helper VB_LOG_LAST VbVerboseLevelToStr file line function L msg e st =
    Done (extend st [EvCalloc (VB_LOG_ENTRY_LEN + 1); EvSyslog text1]) /\
    VbLogPrintExt_helper VB_LOG_LAST VbVerboseLevelToStr VB_EA_DRIVER_ID_MAX_SIZE
      file line function L (Some id) msg e st =
    Done (extend st [EvCalloc (VB_LOG_EXT_ENTRY_LEN VB_EA_DRIVER_ID_MAX_SIZE + 1);
                     EvSyslog text2]) /\
    (text1 = [] <-> no_header) /\
    (text2 = [] <-> no_header) /\
    VbLogPrintExt_helper VB_LOG_LAST VbVerboseLevelToStr VB_EA_DRIVER_ID_MAX_SIZE
      file line function L None msg e st = Fault /\
    lines_emitted st
      (VbLogPrintExt_helper VB_LOG_LAST VbVerboseLevelToStr VB_EA_DRIVER_ID_MAX_SIZE
         file line function L None msg e st) = [].
Proof.
  intros HN HL Hc no_header.
  exists (plain_entry VB_LOG_LAST VbVerboseLevelToStr file line function L msg e),
    (ext_entry VB_LOG_LAST VbVerboseLevelToStr VB_EA_DRIVER_ID_MAX_SIZE
       file line function L id msg e).
  split; [now apply VbLogPrint_line|]. split; [now apply VbLogPrintExt_line|].
  rewrite (VbLogPrintExt_null_driver _ _ _ _ _ _ _ _ _ _ HL Hc).
  cut ((plain_entry VB_LOG_LAST VbVerboseLevelToStr file line function L msg e = [] <->
        no_header) /\
       (ext_entry VB_LOG_LAST VbVerboseLevelToStr VB_EA_DRIVER_ID_MAX_SIZE
          file line function L id msg e = [] <-> no_header)).
  { intros (H1 & H2). split; [exact H1|]. split; [exact H2|]. split; reflexivity. }
  unfold plain_entry, ext_entry, ext_line, no_header.
  destruct file as [f|]; [|split; split; auto].
  destruct function as [fn|]; [|split; split; auto].
  destruct (localtime e) as [tmu|]; [|split; split; auto].
  destruct (Z.ltb_spec L VB_LOG_LAST) as [Hm|Hm]; [|split; split; auto].
  pose proof (header_text_length VbVerboseLevelToStr L f line fn tmu (tv_usec e)) as Hh.
  split; split.
  - intros H. apply (f_equal length) in H. rewrite length_app, Hh in H.
    simpl length in H. unfold VB_LOG_MAX_HDR_LEN in H. simpl in H. lia.
  - intros [H|[H|[H|H]]]; try discriminate. lia.
  - intros H. apply (f_equal length) in H. rewrite length_app, Hh in H.
    simpl length in H. unfold VB_LOG_MAX_HDR_LEN in H. simpl in H. lia.
  - intros [H|[H|[H|H]]]; try discriminate. lia.
Qed.

(** ** What the calls do not depend on *)

Lemma VbLogHdrBuild_stack LAST names dst mode file line function e leftovers :
  VbLogHdrBuild LAST names dst mode file line function (with_stack e leftovers) =
  VbLogHdrBuild LAST names dst mode file line function e.
Proof.
  destruct dst as [d|], file as [f|], function as [fn|]; try reflexivity.
  destruct (Z.ltb_spec mode LAST) as [Hm|Hm].
  - destruct (localtime e) as [tmu|] eqn:Ht.
    + rewrite (VbLogHdrBuild_last_write _ _ _ _ _ _ _ (with_stack e leftovers) tmu Hm Ht).
      now rewrite (VbLogHdrBuild_last_write _ _ _ _ _ _ _ e tmu Hm Ht).
    + rewrite !VbLogHdrBuild_skipped; auto.
  - rewrite !VbLogHdrBuild_skipped; auto.
Qed.

Lemma driver_id_copy_stack (N : nat) (e : env) (driverId : option bytes) leftovers :
  driver_id_copy N (with_stack e leftovers) driverId = driver_id_copy N e driverId.
Proof.
  destruct driverId as [id|]; [|reflexivity].
  destruct N as [|n]; [reflexivity|].
  now rewrite !driver_id_copy_cut by lia.
Qed.

(** X4.  What the uninitialised local arrays hold never shows: with other
    leftovers on the stack [VbLogHdrBuild] and both logging calls do the
    same, for every input. *)
Theorem X4_stack_leftovers_never_show (VB_LOG_LAST : Z) (VbVerboseLevelToStr : Z -> bytes)
    (VB_EA_DRIVER_ID_MAX_SIZE : nat) (dst file : option bytes) (line : Z)
    (function : option bytes) (L : Z) (driverId : option bytes) (msg : bytes)
    (e : env) (st : log_state) (leftovers : bytes) :
  VbLogHdrBuild VB_LOG_LAST VbVerboseLevelToStr dst L file line function
    (with_stack e leftovers) =
  VbLogHdrBuild VB_LOG_LAST VbVerboseLevelToStr dst L file line function e /\
  VbLogPrint_helper VB_LOG_LAST VbVerboseLevelToStr file line function L msg
    (with_stack e leftovers) st =
  VbLogPrint_helper VB_LOG_LAST VbVerboseLevelToStr file line function L msg e st /\
  VbLogPrintExt_helper VB_LOG_LAST VbVerboseLevelToStr VB_EA_DRIVER_ID_MAX_SIZE
    file line function L driverId msg (with_stack e leftovers) st =
  VbLogPrintExt_helper VB_LOG_LAST VbVerboseLevelToStr VB_EA_DRIVER_ID_MAX_SIZE
    file line function L driverId msg e st.
Proof.
  split; [apply VbLogHdrBuild_stack|]. split.
  - unfold VbLogPrint_helper.
    change (calloc (with_stack e leftovers)) with (calloc e).
    destruct (L <=? vbLogVerbose st)%Z; [|reflexivity]. cbv zeta.
    destruct (calloc e _) as [b|]; [|reflexivity].
    now rewrite VbLogHdrBuild_stack.
  - unfold VbLogPrintExt_helper.
    change (calloc (with_stack e leftovers)) with (calloc e).
    destruct (L <=? vbLogVerbose st)%Z; [|reflexivity]. cbv zeta.
    destruct (calloc e _) as [b|]; [|reflexivity].
    now rewrite VbLogHdrBuild_stack, driver_id_copy_stack.
Qed.






(** X6.  An extended call with a NULL driver identifier reads through
    NULL exactly when it is past the gate and has its buffer; filtered,
    or without memory, it returns as a call with an identifier does. *)
Theorem X6_null_driver_id (VB_LOG_LAST : Z) (VbVerboseLevelToStr : Z -> bytes)
    (VB_EA_DRIVER_ID_MAX_SIZE : nat) (file : option bytes) (line : Z)
    (function : option bytes) (L : Z) (msg : bytes) (e : env) (st : log_state) :
  let extended := VbLogPrintExt_helper VB_LOG_LAST VbVerboseLevelToStr
                    VB_EA_DRIVER_ID_MAX_SIZE file line function L in
  (extended None msg e st = Fault <-> (L <= vbLogVerbose st)%Z /\ calloc_ok e = true) /\
  (forall id,
      ~ ((L <= vbLogVerbose st)%Z /\ calloc_ok e = true) ->
      extended None msg e st = extended (Some id) msg e st /\
      extended None msg e st <> Fault).
Proof.
  intros extended. subst extended.
  destruct (Z.le_gt_cases L (vbLogVerbose st)) as [HL|HL].
  - destruct (calloc_ok e) eqn:Hc.
    + rewrite VbLogPrintExt_null_driver by assumption. split; [tauto|].
      intros id H. tauto.
    + pose proof (fun d => VbLogPrintExt_no_memory VB_LOG_LAST VbVerboseLevelToStr
                             VB_EA_DRIVER_ID_MAX_SIZE file line function L d msg e st
                             HL Hc) as H.
      rewrite (H None).
      split; [split; [discriminate | intros [_ H']; discriminate]|].
      intros id _. rewrite (H (Some id)). split; [reflexivity | discriminate].
  - pose proof (fun d => VbLogPrintExt_filtered VB_LOG_LAST VbVerboseLevelToStr
                           VB_EA_DRIVER_ID_MAX_SIZE file line function L d msg e st
                           ltac:(lia)) as H.
    rewrite (H None).
    split; [split; [discriminate | lia]|].
    intros id _. rewrite (H (Some id)). split; [reflexivity | discriminate].
Qed.

(** ** The message of an entry *)

Lemma c_str_of_take (m : bytes) (n : nat) : c_str (take n m) = take n (c_str m).
Proof.
  revert n. induction m as [|c m IH]; intros [|n]; simpl; try reflexivity;
    destruct (Ascii.eqb c NUL); simpl; try reflexivity.
  now rewrite IH.
Qed.

(** X10.  The message of a plain entry is cut at its terminator or after
    [VB_LOG_MAX_LINE_LEN - 1] characters, whichever comes first, and
    follows the header unpadded: a message of 199 characters goes out
    whole, one of 200 loses its last character, and the longest line has
    [VB_LOG_ENTRY_LEN - 1] characters. *)
Theorem X10_message_cut (VB_LOG_LAST : Z) (VbVerboseLevelToStr : Z -> bytes)
    (file : bytes) (line : Z) (function : bytes) (L : Z) (msg : bytes) (e : env)
    (tmu : tm) (st : log_state) :
  (L <= vbLogVerbose st)%Z ->
  calloc_ok e = true ->
  (L < VB_LOG_LAST)%Z ->
  localtime e = Some tmu ->
  exists hdr,
    VbLogPrint_helper VB_LOG_LAST VbVerboseLevelToStr (Some file) line (Some function)
      L msg e st =
    Done (extend st
            [EvCalloc (VB_LOG_ENTRY_LEN + 1);
             EvSyslog (hdr ++ take (VB_LOG_MAX_LINE_LEN - 1) (c_str msg))]) /\
    length hdr = VB_LOG_MAX_HDR_LEN /\
    length (hdr ++ take (VB_LOG_MAX_LINE_LEN - 1) (c_str msg)) =
      VB_LOG_MAX_HDR_LEN + Nat.min (VB_LOG_MAX_LINE_LEN - 1) (length (c_str msg)) /\
    (length (c_str msg) <= VB_LOG_MAX_LINE_LEN - 1 ->
     take (VB_LOG_MAX_LINE_LEN - 1) (c_str msg) = c_str msg) /\
    (VB_LOG_MAX_LINE_LEN - 1 <= length (c_str msg) ->
     length (hdr ++ take (VB_LOG_MAX_LINE_LEN - 1) (c_str msg)) = VB_LOG_ENTRY_LEN - 1).
Proof.
  intros HL Hc Hm Ht.
  exists (header_text VbVerboseLevelToStr L file line function tmu (tv_usec e)).
  pose proof (header_text_length VbVerboseLevelToStr L file line function tmu (tv_usec e))
    as Hh.
  split.
  - rewrite (VbLogPrint_built _ _ _ _ _ _ _ _ _ tmu) by assumption.
    unfold body_text. now rewrite c_str_of_take.
  - split; [exact Hh|]. rewrite length_app, Hh, length_take.
    split; [reflexivity|]. split.
    + intros H. now apply take_ge.
    + intros H. sizes.
Qed.

(** X7.  In an extended entry the message is written
    [VB_EA_DRIVER_ID_MAX_SIZE + 1] characters after the header, and the
    driver field is the bracketed identifier, cut to
    [VB_EA_DRIVER_ID_MAX_SIZE - 1] characters and padded to 20, of which
    at most [VB_EA_DRIVER_ID_MAX_SIZE + 1] characters are written.  With a
    size of at most 21, or an identifier of at least size - 1 characters,
    the field reaches the message and the line is header, field and
    message.  With a larger size and a shorter identifier a terminator is
    left between them, and the line ends with the field: the message is
    lost. *)
Theorem X7_message_after_driver_field (VB_LOG_LAST : Z) (VbVerboseLevelToStr : Z -> bytes)
    (VB_EA_DRIVER_ID_MAX_SIZE : nat) (file : bytes) (line : Z) (function : bytes)
    (L : Z) (id msg : bytes) (e : env) (tmu : tm) (st : log_state) :
  1 <= VB_EA_DRIVER_ID_MAX_SIZE ->
  (L <= vbLogVerbose st)%Z ->
  calloc_ok e = true ->
  (L < VB_LOG_LAST)%Z ->
  localtime e = Some tmu ->
  let hdr := header_text VbVerboseLevelToStr L file line function tmu (tv_usec e) in
  let shown := take (VB_EA_DRIVER_ID_MAX_SIZE - 1) (c_str id) in
  let whole := lit "[" ++ (shown ++ replicate (20 - length shown) SPACE) ++ lit "]" in
  exists text,
    VbLogPrintExt_helper VB_LOG_LAST VbVerboseLevelToStr VB_EA_DRIVER_ID_MAX_SIZE
      (Some file) line (Some function) L (Some id) msg e st =
    Done (extend st [EvCalloc (VB_LOG_EXT_ENTRY_LEN VB_EA_DRIVER_ID_MAX_SIZE + 1);
                     EvSyslog text]) /\
    (VB_EA_DRIVER_ID_MAX_SIZE <= 21 \/
     VB_EA_DRIVER_ID_MAX_SIZE - 1 <= length (c_str id) ->
     text = hdr ++ take (VB_EA_DRIVER_ID_MAX_SIZE + 1) whole ++ body_text msg /\
     length (take (VB_EA_DRIVER_ID_MAX_SIZE + 1) whole) = VB_EA_DRIVER_ID_MAX_SIZE + 1) /\
    (21 < VB_EA_DRIVER_ID_MAX_SIZE ->
     length (c_str id) < VB_EA_DRIVER_ID_MAX_SIZE - 1 ->
     text = hdr ++ whole /\ shown = c_str id /\
     length whole < VB_EA_DRIVER_ID_MAX_SIZE + 1).
Proof.
  intros HN HL Hc Hm Ht hdr shown whole.
  eexists. split; [eapply VbLogPrintExt_built; eassumption|].
  fold hdr. unfold ext_line.
  assert (Hfield : driver_field VB_EA_DRIVER_ID_MAX_SIZE id =
                   take (VB_EA_DRIVER_ID_MAX_SIZE + 1) whole).
  { unfold driver_field, VB_LOG_MAX_DRIVER_HDR_LEN, VB_LOG_DRIVER_ID_FMT, fmt_s_left.
    fold shown. rewrite (c_str_id shown) by apply no_nul_take, c_str_no_nul.
    now replace (VB_EA_DRIVER_ID_MAX_SIZE + 2 - 1)
      with (VB_EA_DRIVER_ID_MAX_SIZE + 1) by lia. }
  assert (Hshown : length shown =
                   Nat.min (VB_EA_DRIVER_ID_MAX_SIZE - 1) (length (c_str id)))
    by (unfold shown; now rewrite length_take).
  assert (Hwhole : length whole = 2 + Nat.max 20 (length shown)).
  { unfold whole. rewrite !length_app, length_replicate. simpl length. lia. }
  rewrite Hfield.
  replace (VB_LOG_MAX_DRIVER_HDR_LEN VB_EA_DRIVER_ID_MAX_SIZE - 1)
    with (VB_EA_DRIVER_ID_MAX_SIZE + 1) by (unfold VB_LOG_MAX_DRIVER_HDR_LEN; lia).
  rewrite length_take. split.
  - intros Hfull.
    destruct (Nat.leb_spec (VB_EA_DRIVER_ID_MAX_SIZE + 1)
                ((VB_EA_DRIVER_ID_MAX_SIZE + 1) `min` length whole)) as [H|H]; [|lia].
    split; [reflexivity | lia].
  - intros Hbig Hshort.
    destruct (Nat.leb_spec (VB_EA_DRIVER_ID_MAX_SIZE + 1)
                ((VB_EA_DRIVER_ID_MAX_SIZE + 1) `min` length whole)) as [H|H]; [lia|].
    rewrite take_ge by lia. rewrite app_nil_r.
    split; [reflexivity|]. split; [|lia].
    unfold shown. apply take_ge. lia.
Qed.

(** ** The effects of one call *)

Lemma calloc_sizes_app (a b : list event) :
  calloc_sizes (a ++ b) = calloc_sizes a ++ calloc_sizes b.
Proof.
  induction a as [|[]]; simpl; try assumption; [reflexivity|]. now f_equal.
Qed.

(** X8.  A logging call asks for its buffer exactly when its level is
    past the gate, once, and for header, message and terminator (and
    driver field); it hands the sink at most one line; and it writes to
    standard error exactly when that allocation fails, in which case the
    sink gets nothing.  This holds of every plain call and of every
    extended call that returns; the one that does not return is the
    extended call with a NULL driver identifier that is past the gate and
    has its buffer. *)
Theorem X8_effects_of_a_call (VB_LOG_LAST : Z) (VbVerboseLevelToStr : Z -> bytes)
    (VB_EA_DRIVER_ID_MAX_SIZE : nat) (file : option bytes) (line : Z)
    (function : option bytes) (L : Z) (driverId : option bytes) (msg : bytes)
    (e : env) (st : log_state) :
  1 <= VB_EA_DRIVER_ID_MAX_SIZE ->
  let one_call (size : nat) (new : list event) :=
    calloc_sizes new = (if (L <=? vbLogVerbose st)%Z then [size] else []) /\
    length (sink_lines new) <= 1 /\
    (stderr_text new <> [] <-> (L <= vbLogVerbose st)%Z /\ calloc_ok e = false) /\
    (stderr_text new <> [] -> sink_lines new = []) in
  (exists new,
     VbLogPrint_helper VB_LOG_LAST VbVerboseLevelToStr file line function L msg e st =
     Done (extend st new) /\
     one_call (VB_LOG_ENTRY_LEN + 1) new) /\
  (VbLogPrintExt_helper VB_LOG_LAST VbVerboseLevelToStr VB_EA_DRIVER_ID_MAX_SIZE
     file line function L driverId msg e st = Fault <->
   driverId = None /\ (L <= vbLogVerbose st)%Z /\ calloc_ok e = true) /\
  (forall st',
     VbLogPrintExt_helper VB_LOG_LAST VbVerboseLevelToStr VB_EA_DRIVER_ID_MAX_SIZE
       file line function L driverId msg e st = Done st' ->
     exists new,
       st' = extend st new /\
       one_call (VB_LOG_MAX_HDR_LEN + (VB_EA_DRIVER_ID_MAX_SIZE + 2) +
                 VB_LOG_MAX_LINE_LEN + 1) new).
Proof.
  intros HN one_call. subst one_call. cbv beta.
  assert (Hne : forall t : bytes, t ++ [ascii_of_nat 10] ++ [] <> []).
  { intros t H. apply (f_equal length) in H. rewrite length_app in H.
    simpl in H. lia. }
  destruct (Z.leb_spec L (vbLogVerbose st)) as [HL|HL].
  - destruct (calloc_ok e) eqn:Hc.
    + split; [|split].
      * eexists. split; [now apply VbLogPrint_line|].
        simpl calloc_sizes. simpl sink_lines. simpl stderr_text. simpl length.
        repeat split; try reflexivity; try lia; try congruence;
          try (intros [_ H]; discriminate).
      * destruct driverId as [id|].
        -- rewrite VbLogPrintExt_line by assumption.
           split; [discriminate | intros (H & _); discriminate].
        -- rewrite VbLogPrintExt_null_driver by assumption. split; auto.
      * intros st'. destruct driverId as [id|].
        -- rewrite VbLogPrintExt_line by assumption. intros H. apply Done_inj in H.
           eexists. split; [symmetry; exact H|].
           simpl calloc_sizes. simpl sink_lines. simpl stderr_text. simpl length.
           repeat split; try reflexivity; try lia; try congruence;
             try (intros [_ H']; discriminate).
        -- rewrite VbLogPrintExt_null_driver by assumption. discriminate.
    + split; [|split].
      * eexists. split; [now apply VbLogPrint_no_memory|].
        simpl calloc_sizes. simpl sink_lines. cbn [stderr_text]. simpl length.
        repeat split; try reflexivity; try lia; auto.
      * rewrite VbLogPrintExt_no_memory by assumption.
        split; [discriminate | intros (_ & _ & H); discriminate].
      * intros st'. rewrite VbLogPrintExt_no_memory by assumption.
        intros H. apply Done_inj in H.
        eexists. split; [symmetry; exact H|].
        simpl calloc_sizes. simpl sink_lines. cbn [stderr_text]. simpl length.
        repeat split; try reflexivity; try lia; auto.
  - split; [|split].
    + exists []. rewrite extend_nil.
      split; [apply VbLogPrint_filtered; lia|].
      simpl. repeat split; try reflexivity; try lia; try congruence.
    + rewrite VbLogPrintExt_filtered by lia.
      split; [discriminate | intros (_ & H & _); lia].
    + intros st'. rewrite VbLogPrintExt_filtered by lia.
      intros H. apply Done_inj in H. exists []. rewrite extend_nil.
      split; [symmetry; exact H|].
      simpl. repeat split; try reflexivity; try lia; try congruence.
Qed.

(** ** Runs of the whole interface *)

Lemma run_call_threshold LAST names N (c : api_call) (st st' : log_state) :
  run_call LAST names N c st = Done st' -> vbLogVerbose st' = vbLogVerbose st.
Proof.
  intros H. apply (run_calls_threshold LAST names N [c]). simpl. now rewrite H.
Qed.

Lemma run_call_total LAST names N (c : api_call) (st : log_state) :
  1 <= N -> has_driver_id c ->
  exists new, run_call LAST names N c st = Done (extend st new).
Proof.
  intros HN Hc.
  destruct (run_calls_total LAST names N [c] st HN) as (new & H).
  - constructor; [exact Hc | constructor].
  - simpl in H. destruct (run_call LAST names N c st) as [s|]; [|discriminate].
    rewrite obind_Done in H. eauto.
Qed.

(** X9.  Of all the public functions of the file only [VbLogInit] writes
    the threshold, and only the two logging calls have any effect: after
    any run of public calls that returns, [VbLogVerboseLevelGet] gives
    the level of the last [VbLogInit] of the run (the threshold from
    before when there is none); a run without logging calls changes
    nothing else; and a run returns when its extended calls hand over a
    driver identifier.  In any state and with any arguments [VbLogRun]
    returns 1 and [VbLogConsoleCmd] returns 0, and neither changes the
    state. *)
Theorem X9_threshold_follows_last_init (VB_LOG_LAST : Z) (VbVerboseLevelToStr : Z -> bytes)
    (VB_EA_DRIVER_ID_MAX_SIZE : nat) (cs : list public_call) (st : log_state) :
  let run := run_public VB_LOG_LAST VbVerboseLevelToStr VB_EA_DRIVER_ID_MAX_SIZE in
  (forall st', run cs st = Done st' ->
     VbLogVerboseLevelGet st' = last_init_level cs (vbLogVerbose st)) /\
  (logging_calls cs = [] ->
   run cs st = Done {| vbLogVerbose := last_init_level cs (vbLogVerbose st);
                       trace := trace st |}) /\
  (1 <= VB_EA_DRIVER_ID_MAX_SIZE -> Forall has_driver_id (logging_calls cs) ->
   exists st', run cs st = Done st') /\
  (forall s, VbLogRun s = (1%Z, s)) /\
  (forall (A B : Type) (arg : A) (writeFun : B) (cmd : list bytes) s,
     VbLogConsoleCmd arg writeFun cmd s = (0%Z, s)).
Proof.
  intros run. subst run.
  cut ((forall st', run_public VB_LOG_LAST VbVerboseLevelToStr VB_EA_DRIVER_ID_MAX_SIZE
                      cs st = Done st' ->
          VbLogVerboseLevelGet st' = last_init_level cs (vbLogVerbose st)) /\
       (logging_calls cs = [] ->
        run_public VB_LOG_LAST VbVerboseLevelToStr VB_EA_DRIVER_ID_MAX_SIZE cs st =
        Done {| vbLogVerbose := last_init_level cs (vbLogVerbose st);
                trace := trace st |}) /\
       (1 <= VB_EA_DRIVER_ID_MAX_SIZE -> Forall has_driver_id (logging_calls cs) ->
        exists st', run_public VB_LOG_LAST VbVerboseLevelToStr VB_EA_DRIVER_ID_MAX_SIZE
                      cs st = Done st')).
  { intros (H1 & H2 & H3). split; [exact H1|]. split; [exact H2|]. split; [exact H3|].
    split; reflexivity. }
  revert st.
  induction cs as [|c cs IH]; intros st.
  - simpl. split; [intros st' [= <-]; reflexivity|].
    split; [intros _; now destruct st | eauto].
  - destruct (IH st) as (_ & _ & _).
    assert (Hquiet : forall s v,
               (run_public_call VB_LOG_LAST VbVerboseLevelToStr
                  VB_EA_DRIVER_ID_MAX_SIZE c st = Done s) ->
               vbLogVerbose s = v -> trace s = trace st ->
               last_init_level (c :: cs) (vbLogVerbose st) = last_init_level cs v ->
               logging_calls (c :: cs) = logging_calls cs ->
               (forall st', run_public VB_LOG_LAST VbVerboseLevelToStr
                              VB_EA_DRIVER_ID_MAX_SIZE (c :: cs) st = Done st' ->
                  VbLogVerboseLevelGet st' = last_init_level (c :: cs) (vbLogVerbose st)) /\
               (logging_calls (c :: cs) = [] ->
                run_public VB_LOG_LAST VbVerboseLevelToStr VB_EA_DRIVER_ID_MAX_SIZE
                  (c :: cs) st =
                Done {| vbLogVerbose := last_init_level (c :: cs) (vbLogVerbose st);
                        trace := trace st |}) /\
               (1 <= VB_EA_DRIVER_ID_MAX_SIZE ->
                Forall has_driver_id (logging_calls (c :: cs)) ->
                exists st', run_public VB_LOG_LAST VbVerboseLevelToStr
                              VB_EA_DRIVER_ID_MAX_SIZE (c :: cs) st = Done st')).
    { intros s v Hs Hv Ht Hlast Hlog.
      destruct (IH s) as (H1 & H2 & H3).
      rewrite Hlast, Hlog. cbn [run_public]. rewrite Hs, obind_Done.
      rewrite Hv in H1, H2. rewrite Ht in H2. auto. }
    destruct c as [q v o n p b | | | fnm am ml m | | cmd | c].
    + apply (Hquiet _ v eq_refl); reflexivity.
    + apply (Hquiet _ (vbLogVerbose st) eq_refl); reflexivity.
    + apply (Hquiet _ (vbLogVerbose st) eq_refl); reflexivity.
    + apply (Hquiet _ (vbLogVerbose st) eq_refl); reflexivity.
    + apply (Hquiet _ (vbLogVerbose st) eq_refl); reflexivity.
    + apply (Hquiet _ (vbLogVerbose st) eq_refl); reflexivity.
    + cbn [run_public run_public_call logging_calls last_init_level].
      split; [|split; [discriminate|]].
      * intros st'.
        destruct (run_call VB_LOG_LAST VbVerboseLevelToStr VB_EA_DRIVER_ID_MAX_SIZE c st)
          as [s|] eqn:E; [|discriminate].
        rewrite obind_Done. intros H.
        destruct (IH s) as (H1 & _). rewrite (H1 _ H).
        now rewrite (run_call_threshold _ _ _ _ _ _ E).
      * intros HN Hall. inversion Hall as [|c' l Hc Hl]; subst.
        destruct (run_call_total VB_LOG_LAST VbVerboseLevelToStr
                    VB_EA_DRIVER_ID_MAX_SIZE c st HN Hc) as (new & ->).
        rewrite obind_Done. destruct (IH (extend st new)) as (_ & _ & H3). auto.
Qed.

(** ** The further properties on example calls *)

(** Line 65578 is shown as line 42. *)
Lemma X1_header_fields_witness :
  VbLogHdrBuild example_LAST example_names (Some (replicate 307 NUL)) 0
    (Some (lit "net.c")) 65578 (Some (lit "doSend")) example_env =
  Done (Some (example_header ++ NUL :: drop (VB_LOG_MAX_HDR_LEN + 1) (replicate 307 NUL))).
Proof.
  destruct (X1_header_fields example_LAST example_names (replicate 307 NUL) 0
              (lit "net.c") 65578 (lit "doSend") example_env example_clock)
    as (Hrun & _).
  - unfold example_LAST. lia.
  - reflexivity.
  - unfold tm_in_range. simpl. lia.
  - vm_compute. lia.
  - exact Hrun.
Defined.

(** A block of 100 characters is too short for a header. *)
Lemma X2_header_needs_room_witness :
  VbLogHdrBuild example_LAST example_names (Some (replicate 100 NUL)) 0
    (Some (lit "net.c")) 42 (Some (lit "doSend")) example_env = Fault.
Proof.
  destruct (X2_header_needs_room example_LAST example_names (replicate 100 NUL) 0
              (lit "net.c") 42 (lit "doSend") example_env example_clock)
    as (Hshort & _).
  - unfold example_LAST. lia.
  - reflexivity.
  - apply Hshort. vm_compute. lia.
Defined.

(** Without local time the sink gets the empty line. *)
Lemma X3_empty_line_iff_no_header_witness :
  VbLogPrint_helper example_LAST example_names (Some (lit "net.c")) 42
    (Some (lit "doSend")) 0 (lit "failed: 7")
    {| calloc_ok := true; localtime := None; tv_usec := 123456; stack := [] |}
    example_state =
  Done (extend example_state [EvCalloc (VB_LOG_ENTRY_LEN + 1); EvSyslog []]).
Proof.
  destruct (X3_empty_line_iff_no_header example_LAST example_names 21
              (Some (lit "net.c")) 42 (Some (lit "doSend")) 0 example_id64
              (lit "failed: 7")
              {| calloc_ok := true; localtime := None; tv_usec := 123456; stack := [] |}
              example_state)
    as (text1 & text2 & Hrun & _ & Htext1 & _).
  - lia.
  - simpl. lia.
  - reflexivity.
  - rewrite Hrun. replace text1 with (@nil ascii); [reflexivity|].
    symmetry. apply Htext1. right. right. right. reflexivity.
Defined.


(** A filtered call never looks at its driver identifier. *)
Lemma X6_null_driver_id_witness :
  VbLogPrintExt_helper example_LAST example_names 21 (Some (lit "net.c")) 42
    (Some (lit "doSend")) 2 None (lit "failed: 7") example_env example_state =
  VbLogPrintExt_helper example_LAST example_names 21 (Some (lit "net.c")) 42
    (Some (lit "doSend")) 2 (Some example_id64) (lit "failed: 7") example_env
    example_state.
Proof.
  destruct (X6_null_driver_id example_LAST example_names 21 (Some (lit "net.c")) 42
              (Some (lit "doSend")) 2 (lit "failed: 7") example_env example_state)
    as (_ & Hother).
  destruct (Hother example_id64) as (Hsame & _).
  - simpl. lia.
  - exact Hsame.
Defined.

(** With a driver identifier size of 64 and the identifier [eth0] the
    line ends with the field. *)
Lemma X7_message_after_driver_field_witness :
  VbLogPrintExt_helper example_LAST example_names 64 (Some (lit "net.c")) 42
    (Some (lit "doSend")) 0 (Some (lit "eth0")) (lit "failed: 7") example_env
    example_state =
  Done (extend example_state
          [EvCalloc (VB_LOG_EXT_ENTRY_LEN 64 + 1);
           EvSyslog (example_header ++ lit "[eth0                ]")]).
Proof.
  destruct (X7_message_after_driver_field example_LAST example_names 64 (lit "net.c") 42
              (lit "doSend") 0 (lit "eth0") (lit "failed: 7") example_env example_clock
              example_state)
    as (text & Hrun & _ & Hlost).
  - lia.
  - simpl. lia.
  - reflexivity.
  - unfold example_LAST. lia.
  - reflexivity.
  - destruct Hlost as (Htext & _).
    + lia.
    + simpl. lia.
    + rewrite Hrun, Htext. reflexivity.
Defined.

Lemma X8_effects_of_a_call_witness :
  (exists new1,
     VbLogPrint_helper example_LAST example_names (Some (lit "net.c")) 42
       (Some (lit "doSend")) 0 (lit "failed: 7") example_env_no_memory example_state =
     Done (extend example_state new1) /\
     calloc_sizes new1 = [307] /\ stderr_text new1 <> [] /\ sink_lines new1 = []) /\
  (forall st',
     VbLogPrintExt_helper example_LAST example_names 21 (Some (lit "net.c")) 42
       (Some (lit "doSend")) 0 (Some example_id64) (lit "failed: 7")
       example_env_no_memory example_state = Done st' ->
     exists new2, st' = extend example_state new2 /\ calloc_sizes new2 = [330]) /\
  VbLogPrintExt_helper example_LAST example_names 21 (Some (lit "net.c")) 42
    (Some (lit "doSend")) 0 None (lit "failed: 7") example_env example_state = Fault.
Proof.
  split; [|split].
  - destruct (X8_effects_of_a_call example_LAST example_names 21 (Some (lit "net.c")) 42
                (Some (lit "doSend")) 0 (Some example_id64) (lit "failed: 7")
                example_env_no_memory example_state ltac:(lia))
      as ((new1 & H1 & Hc1 & _ & Hs1 & Hq1) & _).
    exists new1.
    assert (Hs : stderr_text new1 <> [])
      by (apply Hs1; split; [simpl; lia | reflexivity]).
    split; [exact H1|]. split; [exact Hc1|]. split; [exact Hs | now apply Hq1].
  - destruct (X8_effects_of_a_call example_LAST example_names 21 (Some (lit "net.c")) 42
                (Some (lit "doSend")) 0 (Some example_id64) (lit "failed: 7")
                example_env_no_memory example_state ltac:(lia))
      as (_ & _ & Hext).
    intros st' Hrun. destruct (Hext st' Hrun) as (new2 & Hst & Hc2 & _).
    exists new2. split; [exact Hst | exact Hc2].
  - destruct (X8_effects_of_a_call example_LAST example_names 21 (Some (lit "net.c")) 42
                (Some (lit "doSend")) 0 None (lit "failed: 7")
                example_env example_state ltac:(lia))
      as (_ & Hfault & _).
    apply Hfault. split; [reflexivity|]. split; [simpl; lia | reflexivity].
Defined.

(** The second [VbLogInit] decides. *)
Lemma X9_threshold_follows_last_init_witness :
  exists st',
    run_public example_LAST example_names 21
      [Pub_VbLogInit (Some (lit "queue")) 2 None 100 3 true;
       Pub_VbLogRun;
       Pub_logging (Call_VbLogPrint (Some (lit "net.c")) 42 (Some (lit "doSend")) 2
                      (lit "failed: 7") example_env);
       Pub_VbLogInit None 0 None 0 0 false;
       Pub_VbLogConsoleCmd [lit "log"];
       Pub_VbLogStop]
      example_state = Done st' /\
    VbLogVerboseLevelGet st' = 0%Z /\
    VbLogRun st' = (1%Z, st') /\
    VbLogConsoleCmd tt tt [lit "log"] st' = (0%Z, st').
Proof.
  destruct (X9_threshold_follows_last_init example_LAST example_names 21
              [Pub_VbLogInit (Some (lit "queue")) 2 None 100 3 true;
               Pub_VbLogRun;
               Pub_logging (Call_VbLogPrint (Some (lit "net.c")) 42
                              (Some (lit "doSend")) 2 (lit "failed: 7") example_env);
               Pub_VbLogInit None 0 None 0 0 false;
               Pub_VbLogConsoleCmd [lit "log"];
               Pub_VbLogStop]
              example_state)
    as (Hget & _ & Hruns & Hone & Hzero).
  destruct Hruns as (st' & Hrun).
  - lia.
  - repeat constructor.
  - exists st'. split; [exact Hrun|]. split; [exact (Hget st' Hrun)|].
    split; [apply Hone | apply Hzero].
Defined.

(** Of a message of 200 characters 199 go out. *)
Lemma X10_message_cut_witness :
  exists hdr,
    VbLogPrint_helper example_LAST example_names (Some (lit "net.c")) 42
      (Some (lit "doSend")) 0 (replicate 200 "x"%char) example_env example_state =
    Done (extend example_state
            [EvCalloc (VB_LOG_ENTRY_LEN + 1);
             EvSyslog (hdr ++ replicate 199 "x"%char)]) /\
    length (hdr ++ replicate 199 "x"%char) = VB_LOG_ENTRY_LEN - 1.
Proof.
  destruct (X10_message_cut example_LAST example_names (lit "net.c") 42 (lit "doSend") 0
              (replicate 200 "x"%char) example_env example_clock example_state)
    as (hdr & Hrun & _ & _ & _ & Hlong).
  - simpl. lia.
  - reflexivity.
  - unfold example_LAST. lia.
  - reflexivity.
  - exists hdr. split; [exact Hrun|]. apply Hlong. vm_compute. lia.
Defined.

(** ** The two variants, the level names, the clock *)

Lemma ext_line_with_message (N : nat) (hdr id msg : bytes) :
  N <= 21 \/ N - 1 <= length (c_str id) ->
  ext_line N hdr id msg = hdr ++ driver_field N id ++ body_text msg /\
  length (driver_field N id) = N + 1.
Proof.
  intros H. pose proof (driver_field_length N id) as Hl.
  assert (Hfull : length (driver_field N id) = N + 1) by lia.
  split; [|exact Hfull]. unfold ext_line. rewrite Hfull.
  replace (VB_LOG_MAX_DRIVER_HDR_LEN N - 1) with (N + 1)
    by (unfold VB_LOG_MAX_DRIVER_HDR_LEN; lia).
  now rewrite Nat.leb_refl.
Qed.

(** X11.  An extended entry is the plain entry of the same call with the
    driver field put in after the header: when the field reaches the
    message, the two lines have the same first [VB_LOG_MAX_HDR_LEN]
    characters, and the extended line without these and the
    [VB_EA_DRIVER_ID_MAX_SIZE + 1] characters of the field is the message
    of the plain line. *)
Theorem X11_extended_is_plain_with_field (VB_LOG_LAST : Z)
    (VbVerboseLevelToStr : Z -> bytes) (VB_EA_DRIVER_ID_MAX_SIZE : nat)
    (file : bytes) (line : Z) (function : bytes) (L : Z) (id msg : bytes) (e : env)
    (tmu : tm) (st : log_state) :
  1 <= VB_EA_DRIVER_ID_MAX_SIZE ->
  (L <= vbLogVerbose st)%Z ->
  calloc_ok e = true ->
  (L < VB_LOG_LAST)%Z ->
  localtime e = Some tmu ->
  VB_EA_DRIVER_ID_MAX_SIZE <= 21 \/ VB_EA_DRIVER_ID_MAX_SIZE - 1 <= length (c_str id) ->
  exists plain extended,
    VbLogPrint_helper VB_LOG_LAST VbVerboseLevelToStr (Some file) line (Some function)
      L msg e st =
    Done (extend st [EvCalloc (VB_LOG_ENTRY_LEN + 1); EvSyslog plain]) /\
    VbLogPrintExt_helper VB_LOG_LAST VbVerboseLevelToStr VB_EA_DRIVER_ID_MAX_SIZE
      (Some file) line (Some function) L (Some id) msg e st =
    Done (extend st [EvCalloc (VB_LOG_EXT_ENTRY_LEN VB_EA_DRIVER_ID_MAX_SIZE + 1);
                     EvSyslog extended]) /\
    take VB_LOG_MAX_HDR_LEN extended = take VB_LOG_MAX_HDR_LEN plain /\
    drop (VB_LOG_MAX_HDR_LEN + (VB_EA_DRIVER_ID_MAX_SIZE + 1)) extended =
      drop VB_LOG_MAX_HDR_LEN plain /\
    length extended = length plain + (VB_EA_DRIVER_ID_MAX_SIZE + 1).
Proof.
  intros HN HL Hc Hm Ht Hfull.
  set (hdr := header_text VbVerboseLevelToStr L file line function tmu (tv_usec e)).
  assert (Hh : length hdr = VB_LOG_MAX_HDR_LEN) by apply header_text_length.
  destruct (ext_line_with_message VB_EA_DRIVER_ID_MAX_SIZE hdr id msg Hfull)
    as (Hline & Hfield).
  exists (hdr ++ body_text msg), (ext_line VB_EA_DRIVER_ID_MAX_SIZE hdr id msg).
  split; [eapply VbLogPrint_built; eassumption|].
  split; [eapply VbLogPrintExt_built; eassumption|].
  rewrite Hline. split; [|split].
  - now rewrite !take_app_length' by (symmetry; exact Hh).
  - rewrite <- Hh, <- Hfield, <- length_app, app_assoc.
    now rewrite !drop_app_length.
  - rewrite !length_app, Hfield. lia.
Qed.

(** X12.  The name of a level is asked for only when the level is below
    the sentinel: with two tables of names that agree on the level of the
    call, if that is below the sentinel, [VbLogHdrBuild] and both logging
    calls do the same, whatever the tables hold elsewhere. *)
Theorem X12_level_name_only_below_sentinel (VB_LOG_LAST : Z)
    (VbVerboseLevelToStr other_names : Z -> bytes) (VB_EA_DRIVER_ID_MAX_SIZE : nat)
    (dst file : option bytes) (line : Z) (function : option bytes) (L : Z)
    (driverId : option bytes) (msg : bytes) (e : env) (st : log_state) :
  ((L < VB_LOG_LAST)%Z -> other_names L = VbVerboseLevelToStr L) ->
  VbLogHdrBuild VB_LOG_LAST other_names dst L file line function e =
  VbLogHdrBuild VB_LOG_LAST VbVerboseLevelToStr dst L file line function e /\
  VbLogPrint_helper VB_LOG_LAST other_names file line function L msg e st =
  VbLogPrint_helper VB_LOG_LAST VbVerboseLevelToStr file line function L msg e st /\
  VbLogPrintExt_helper VB_LOG_LAST other_names VB_EA_DRIVER_ID_MAX_SIZE
    file line function L driverId msg e st =
  VbLogPrintExt_helper VB_LOG_LAST VbVerboseLevelToStr VB_EA_DRIVER_ID_MAX_SIZE
    file line function L driverId msg e st.
Proof.
  intros Hnames.
  assert (Hhdr : forall d,
             VbLogHdrBuild VB_LOG_LAST other_names d L file line function e =
             VbLogHdrBuild VB_LOG_LAST VbVerboseLevelToStr d L file line function e).
  { intros d. unfold VbLogHdrBuild.
    destruct d, file, function; try reflexivity.
    destruct (Z.ltb_spec L VB_LOG_LAST) as [Hm|Hm]; [|reflexivity].
    now rewrite (Hnames Hm). }
  split; [apply Hhdr|]. split.
  - unfold VbLogPrint_helper.
    destruct (L <=? vbLogVerbose st)%Z; [|reflexivity]. cbv zeta.
    destruct (calloc e _) as [b|]; [|reflexivity].
    now rewrite Hhdr.
  - unfold VbLogPrintExt_helper.
    destruct (L <=? vbLogVerbose st)%Z; [|reflexivity]. cbv zeta.
    destruct (calloc e _) as [b|]; [|reflexivity].
    now rewrite Hhdr.
Qed.

(** X13.  The time of a call shows in the last 15 characters of the
    header only: two headers of the same level, names and line, built at
    different times (and with different leftovers on the stack), have
    the same first 91 characters. *)
Theorem X13_time_shows_in_clock_field_only (VB_LOG_LAST : Z)
    (VbVerboseLevelToStr : Z -> bytes) (dst : bytes) (mode : Z) (file : bytes)
    (line : Z) (function : bytes) (e e' : env) (tmu tmu' : tm) :
  (mode < VB_LOG_LAST)%Z ->
  localtime e = Some tmu -> localtime e' = Some tmu' ->
  tm_in_range tmu -> tm_in_range tmu' ->
  VB_LOG_MAX_HDR_LEN + 1 <= length dst ->
  exists front clock clock',
    VbLogHdrBuild VB_LOG_LAST VbVerboseLevelToStr (Some dst) mode (Some file) line
      (Some function) e =
    Done (Some ((front ++ clock) ++ NUL :: drop (VB_LOG_MAX_HDR_LEN + 1) dst)) /\
    VbLogHdrBuild VB_LOG_LAST VbVerboseLevelToStr (Some dst) mode (Some file) line
      (Some function) e' =
    Done (Some ((front ++ clock') ++ NUL :: drop (VB_LOG_MAX_HDR_LEN + 1) dst)) /\
    length front = VB_LOG_MAX_HDR_LEN - 15 /\
    length clock = 15 /\ length clock' = 15.
Proof.
  intros Hm Ht Ht' Hr Hr' Hd.
  rewrite (VbLogHdrBuild_built _ _ _ _ _ _ _ _ tmu Hm Ht Hd).
  rewrite (VbLogHdrBuild_built _ _ _ _ _ _ _ _ tmu' Hm Ht' Hd).
  rewrite !header_text_layout by assumption.
  set (a := take 7 _). set (b := replicate (30 - _) SPACE ++ _).
  set (c := fmt_0u 5 _). set (d := replicate (40 - _) SPACE ++ _).
  assert (Ha : length a = 7).
  { unfold a. rewrite length_take, length_app, length_replicate. lia. }
  assert (Hb : length b = 30).
  { unfold b. rewrite length_app, length_replicate, length_take. lia. }
  assert (Hc : length c = 5).
  { pose proof (fmt_0u_5_exact _ (INT16U_of_range line)) as H5. exact H5. }
  assert (Hdd : length d = 40).
  { unfold d. rewrite length_app, length_replicate, length_take. lia. }
  assert (Hclock : forall t u, tm_in_range t ->
            length (fmt_0d 2 (tm_hour t) ++ lit ":" ++ fmt_0d 2 (tm_min t) ++ lit ":" ++
                    fmt_0d 2 (tm_sec t) ++ lit " " ++ fmt_0d 3 (msec_of u) ++ lit "ms]")
            = 15).
  { intros t u (H1 & H2 & H3).
    rewrite !length_app, !fmt_0d_2_exact, fmt_0d_3_exact
      by (lia || apply msec_of_range).
    reflexivity. }
  exists (lit "[" ++ a ++ lit "][" ++ b ++ lit "][" ++ c ++ lit "][" ++ d ++ lit "]["),
    (fmt_0d 2 (tm_hour tmu) ++ lit ":" ++ fmt_0d 2 (tm_min tmu) ++ lit ":" ++
     fmt_0d 2 (tm_sec tmu) ++ lit " " ++ fmt_0d 3 (msec_of (tv_usec e)) ++ lit "ms]"),
    (fmt_0d 2 (tm_hour tmu') ++ lit ":" ++ fmt_0d 2 (tm_min tmu') ++ lit ":" ++
     fmt_0d 2 (tm_sec tmu') ++ lit " " ++ fmt_0d 3 (msec_of (tv_usec e')) ++ lit "ms]").
  split; [now rewrite <- !app_assoc|]. split; [now rewrite <- !app_assoc|].
  split; [|split; now apply Hclock].
  rewrite !length_app, Ha, Hb, Hc, Hdd. simpl length. sizes.
Qed.

Lemma X11_extended_is_plain_with_field_witness :
  exists plain extended,
    lines_emitted example_state
      (VbLogPrint_helper example_LAST example_names (Some (lit "net.c")) 42
         (Some (lit "doSend")) 0 (lit "failed: 7") example_env example_state) = [plain] /\
    lines_emitted example_state
      (VbLogPrintExt_helper example_LAST example_names 21 (Some (lit "net.c")) 42
         (Some (lit "doSend")) 0 (Some example_id64) (lit "failed: 7") example_env
         example_state) = [extended] /\
    take VB_LOG_MAX_HDR_LEN extended ++ drop (VB_LOG_MAX_HDR_LEN + 22) extended = plain.
Proof.
  destruct (X11_extended_is_plain_with_field example_LAST example_names 21
              (lit "net.c") 42 (lit "doSend") 0 example_id64 (lit "failed: 7")
              example_env example_clock example_state)
    as (plain & extended & H1 & H2 & Htake & Hdrop & _).
  - lia.
  - simpl. lia.
  - reflexivity.
  - unfold example_LAST. lia.
  - reflexivity.
  - left. lia.
  - exists plain, extended. rewrite H1, H2, !lines_emitted_extend.
    split; [reflexivity|]. split; [reflexivity|].
    rewrite Htake. change (21 + 1) with 22 in Hdrop. rewrite Hdrop.
    apply take_drop.
Defined.

(** A table that has no name at the sentinel and beyond does as well. *)
Lemma X12_level_name_only_below_sentinel_witness :
  VbLogPrint_helper example_LAST
    (fun level => if (level <? 5)%Z then example_names level else [])
    (Some (lit "net.c")) 42 (Some (lit "doSend")) 5 (lit "failed: 7") example_env
    (example_state_at 5) =
  VbLogPrint_helper example_LAST example_names
    (Some (lit "net.c")) 42 (Some (lit "doSend")) 5 (lit "failed: 7") example_env
    (example_state_at 5).
Proof.
  destruct (X12_level_name_only_below_sentinel example_LAST example_names
              (fun level => if (level <? 5)%Z then example_names level else []) 21
              None (Some (lit "net.c")) 42 (Some (lit "doSend")) 5 (Some example_id64)
              (lit "failed: 7") example_env (example_state_at 5))
    as (_ & Hplain & _).
  - unfold example_LAST. lia.
  - exact Hplain.
Defined.

Lemma X13_time_shows_in_clock_field_only_witness :
  exists front clock clock',
    VbLogHdrBuild example_LAST example_names (Some (replicate 307 NUL)) 0
      (Some (lit "net.c")) 42 (Some (lit "doSend")) example_env =
    Done (Some ((front ++ clock) ++
                NUL :: drop (VB_LOG_MAX_HDR_LEN + 1) (replicate 307 NUL))) /\
    VbLogHdrBuild example_LAST example_names (Some (replicate 307 NUL)) 0
      (Some (lit "net.c")) 42 (Some (lit "doSend"))
      {| calloc_ok := true;
         localtime := Some {| tm_hour := 23; tm_min := 59; tm_sec := 60 |};
         tv_usec := 999999; stack := [] |} =
    Done (Some ((front ++ clock') ++
                NUL :: drop (VB_LOG_MAX_HDR_LEN + 1) (replicate 307 NUL))) /\
    length front = VB_LOG_MAX_HDR_LEN - 15.
Proof.
  destruct (X13_time_shows_in_clock_field_only example_LAST example_names
              (replicate 307 NUL) 0 (lit "net.c") 42 (lit "doSend") example_env
              {| calloc_ok := true;
                 localtime := Some {| tm_hour := 23; tm_min := 59; tm_sec := 60 |};
                 tv_usec := 999999; stack := [] |}
              example_clock {| tm_hour := 23; tm_min := 59; tm_sec := 60 |})
    as (front & clock & clock' & H1 & H2 & Hfront & _).
  - unfold example_LAST. lia.
  - reflexivity.
  - reflexivity.
  - unfold tm_in_range. simpl. lia.
  - unfold tm_in_range. simpl. lia.
  - vm_compute. lia.
  - exists front, clock, clock'. split; [exact H1|]. split; [exact H2 | exact Hfront].
Defined.
